(** * The Gemini response relay of [api/model_gemini_service.go]

    A shallow embedding of the relay (endpoint resolution, the single-shot
    and streaming paths, title generation) and the properties of it that the
    specification states.

    Go strings and byte slices are sequences of bytes; both are modelled by
    [string], whose characters are 8-bit.  A Go function returning
    a pointer and an error returns a pair of options, [None] standing for
    [nil].  A
    run-time panic (index out of range, nil dereference) is an outcome of
    its own, see [Outcome]. *)

From Stdlib Require Import String Ascii List ZArith Lia Bool DecimalString.
Import ListNotations.
Open Scope string_scope.
Open Scope Z_scope.

(** ** The Go standard library, as far as the relay uses it *)

Definition bytes := string.

Definition byte_of (n : nat) : ascii := ascii_of_nat n.

(** The line feed and the double quote, which a literal cannot hold. *)
Definition LF : string := String (byte_of 10) "".
Definition QUOTE : string := String (byte_of 34) "".

Module strings.

Fixpoint drop (n : nat) (s : string) : string :=
  match n, s with
  | O, _ => s
  | S _, "" => ""
  | S k, String _ t => drop k t
  end.

Fixpoint take (n : nat) (s : string) : string :=
  match n, s with
  | O, _ => ""
  | S _, "" => ""
  | S k, String c t => String c (take k t)
  end.

Fixpoint rev_onto (s acc : string) : string :=
  match s with
  | "" => acc
  | String c t => rev_onto t (String c acc)
  end.

Definition rev (s : string) : string := rev_onto s "".

Definition HasPrefix (s p : string) : bool := String.prefix p s.

(** [strings.TrimPrefix] and [bytes.TrimPrefix]. *)
Definition TrimPrefix (s p : string) : string :=
  if HasPrefix s p then drop (String.length p) s else s.

Fixpoint mem (c : ascii) (set : string) : bool :=
  match set with
  | "" => false
  | String d t => Ascii.eqb c d || mem c t
  end.

Fixpoint trimLeftSet (s set : string) : string :=
  match s with
  | "" => ""
  | String c t => if mem c set then trimLeftSet t set else s
  end.

Definition trimRightSet (s set : string) : string :=
  rev (trimLeftSet (rev s) set).

(** [strings.Trim s cutset] for a cutset of ASCII characters, the only kind
    the relay passes: every leading and every trailing byte that belongs to
    the cutset is removed. *)
Definition Trim (s cutset : string) : string :=
  trimLeftSet (trimRightSet s cutset) cutset.

(** The white space of [unicode.IsSpace] in UTF-8: the six ASCII characters
    [\t \n \v \f \r] and space, U+0085, U+00A0, U+1680, U+2000..U+200A,
    U+2028, U+2029, U+202F, U+205F and U+3000. *)
Definition asciiSpace : string :=
  String (byte_of 9) (String (byte_of 10) (String (byte_of 11)
    (String (byte_of 12) (String (byte_of 13) (String (byte_of 32) ""))))).

Definition utf8 (l : list nat) : string :=
  string_of_list_ascii (map byte_of l).

Definition wideSpace : list string :=
  map utf8
    ([ [194; 133]; [194; 160]; [225; 154; 128] ]
     ++ map (fun k => [226; 128; k])
          [128; 129; 130; 131; 132; 133; 134; 135; 136; 137; 138; 168; 169; 175]
     ++ [ [226; 129; 159]; [227; 128; 128] ])%nat%list.

(** The first element of [ps] that starts [s], cut off. *)
Fixpoint cutOne (s : string) (ps : list string) : option string :=
  match ps with
  | [] => None
  | p :: ps' => if HasPrefix s p then Some (drop (String.length p) s)
                else cutOne s ps'
  end.

(** One pass per byte of [s] is enough: [n] bounds the number of characters
    removed. *)
Fixpoint trimLeftSpace (n : nat) (spaces : list string) (s : string) : string :=
  match n with
  | O => s
  | S k =>
      match s with
      | "" => ""
      | String c t =>
          if mem c asciiSpace then trimLeftSpace k spaces t
          else match cutOne s spaces with
               | Some t' => trimLeftSpace k spaces t'
               | None => s
               end
      end
  end.

Definition TrimSpace (s : string) : string :=
  let l := trimLeftSpace (String.length s) wideSpace s in
  rev (trimLeftSpace (String.length l) (map rev wideSpace) (rev l)).

Definition Contains (s substr : string) : bool :=
  match String.index 0 substr s with
  | Some _ => true
  | None => false
  end.

End strings.

Module os.

Definition isShellSpecialVar (c : ascii) : bool :=
  strings.mem c "*#$@!?-0123456789".

Definition isAlphaNum (c : ascii) : bool :=
  strings.mem c "_0123456789abcdefghijklmnopqrstuvwxyzABCDEFGHIJKLMNOPQRSTUVWXYZ".

Fixpoint alnumPrefix (s : string) : nat :=
  match s with
  | "" => O
  | String c t => if isAlphaNum c then S (alnumPrefix t) else O
  end.

(** Where the first closing brace of [s] is. *)
Fixpoint closing (s : string) : option nat :=
  match s with
  | "" => None
  | String c t =>
      if Ascii.eqb c "}" then Some O else option_map S (closing t)
  end.

(** [getShellName s]: the name that starts [s], the text after a dollar
    sign, and how many bytes it takes. *)
Definition getShellName (s : string) : string * nat :=
  match s with
  | "" => ("", O)
  | String c t =>
      if Ascii.eqb c "{" then
        match t with
        | String c1 (String c2 _) =>
            if isShellSpecialVar c1 && Ascii.eqb c2 "}"
            then (String c1 "", 3%nat)
            else match closing t with
                 | Some O => ("", 2%nat)
                 | Some i => (strings.take i t, (i + 2)%nat)
                 | None => ("", 1%nat)
                 end
        | _ => match closing t with
               | Some O => ("", 2%nat)
               | Some i => (strings.take i t, (i + 2)%nat)
               | None => ("", 1%nat)
               end
        end
      else if isShellSpecialVar c then (String c "", 1%nat)
      else let i := alnumPrefix s in (strings.take i s, i)
  end.

(** [os.Expand]: [skip] counts the bytes of a reference still to pass
    over (the loop's [j += w]). *)
Fixpoint expandFrom (mapping : string -> string) (skip : nat) (s : string)
  : string :=
  match s with
  | "" => ""
  | String c t =>
      match skip with
      | S k => expandFrom mapping k t
      | O =>
          if Ascii.eqb c "$" && negb (String.eqb t "") then
            let '(name, w) := getShellName t in
            (if String.eqb name ""
             then match w with O => "$" | S _ => "" end
             else mapping name)
            ++ expandFrom mapping w t
          else String c (expandFrom mapping O t)
      end
  end.

Definition Expand (s : string) (mapping : string -> string) : string :=
  expandFrom mapping O s.

(** The process environment: what [os.LookupEnv] finds. *)
Definition Environ := string -> option string.

Definition Getenv (environ : Environ) (key : string) : string :=
  match environ key with
  | Some v => v
  | None => ""
  end.

Definition ExpandEnv (environ : Environ) (s : string) : string :=
  Expand s (Getenv environ).

End os.

(** [fmt.Sprintf "%d"]. *)
Definition itoa (n : Z) : string := NilEmpty.string_of_int (Z.to_int n).

(** ** Data *)

Module models.

Record Message := { Role : string; Content : string }.

Record LLMAnswer := { Answer : string; AnswerId : string }.

End models.

Module sqlc_queries.

(** The two fields of a chat session that [Stream] reads. *)
Record ChatSession := { Uuid : string; Model : string }.

(** Modelled from the spec: the row type of
    [ListChatFilesWithContentBySessionUUID] is not in src; an attachment is
    a file's content. *)
Definition ChatFile := bytes.

End sqlc_queries.

Module gemini.

(** The path [Candidates[0].Content.Parts[0].Text] that
    [handleRegularResponse] follows through the decoded envelope. *)
Record Part := { Text : string }.
Record ContentBody := { Parts : list Part }.
Record Candidate := { Content : ContentBody }.
Record ResponseBody := { Candidates : list Candidate }.

End gemini.

Module io.

(** A response body, as its readers see it: the complete lines (each ends
    with a line feed), the bytes after the last line feed, and the error
    that ends the body, [None] for [io.EOF]. *)
Record Reader := {
  lines : list bytes;
  rest : bytes;
  err : option string
}.

(** [io.ReadAll]: [io.EOF] is not an error. *)
Definition ReadAll (r : Reader) : bytes * option string :=
  (String.concat "" (lines r) ++ rest r, err r).

End io.

Module http.

Definition StatusOK : Z := 200.
Definition StatusInternalServerError : Z := 500.

Record Request := {
  Method : string;
  URL : string;
  Payload : bytes;
  Header : list (string * string)
}.

(** [Header.Set]: the value replaces those the key had. *)
Definition Header_Set (r : Request) (k v : string) : Request :=
  {| Method := Method r; URL := URL r; Payload := Payload r;
     Header :=
       (k, v) :: filter (fun kv => negb (String.eqb (fst kv) k)) (Header r) |}.

Record Response := { StatusCode : Z; Body : io.Reader }.

(** [Timeout], in seconds. *)
Record Client := { Timeout : Z }.

(** The consumer [w]: whether its dynamic type implements [http.Flusher].
    What it received is in the [World]. *)
Record ResponseWriter := { implementsFlusher : bool }.

End http.

(** Modelled from the spec: the type [APIError] and its methods are not in
    src.  An error is a kind ([HTTPCode] and [Code]), a human message and an
    optional debug detail; [WithMessage] replaces the message and
    [WithDebugInfo] the debug detail, the kind stays. *)
Record APIError := {
  HTTPCode : Z;
  Code : string;
  Message : string;
  DebugInfo : string
}.

Definition WithMessage (e : APIError) (m : string) : APIError :=
  {| HTTPCode := HTTPCode e; Code := Code e; Message := m;
     DebugInfo := DebugInfo e |}.

Definition WithDebugInfo (e : APIError) (d : string) : APIError :=
  {| HTTPCode := HTTPCode e; Code := Code e; Message := Message e;
     DebugInfo := d |}.

(** Modelled from the spec: [constructChatCompletionStreamReponse] is not
    in src; a delivery holds the answer id and the cumulative text. *)
Record ChatCompletionStreamResponse := {
  DeliveryID : string;
  DeliveryText : string
}.

Definition constructChatCompletionStreamReponse (answerID answer : string)
  : ChatCompletionStreamResponse :=
  {| DeliveryID := answerID; DeliveryText := answer |}.

(** Modelled from the spec: [firstN] is not in src; the text is cut to at
    most [n] characters, with no regard for word boundaries. *)
Definition firstN (s : string) (n : Z) : string :=
  strings.take (Z.to_nat n) s.

(** What the relay calls in other packages: the two error values of
    errors.go, the payload builder and the chunk parser of package gemini,
    [encoding/json] at the two types it is used at, the parse error
    [http.NewRequest] reports for a URL, and the headers [setSSEHeader]
    sets. *)
Class Imports := {
  ErrInternalUnexpected : APIError;
  ErrValidationInvalidInput : string -> APIError;
  GenGemminPayload :
    list models.Message -> list sqlc_queries.ChatFile -> bytes + string;
  ParseRespLine : bytes -> string -> string;
  json_Unmarshal : bytes -> gemini.ResponseBody + string;
  json_Marshal : ChatCompletionStreamResponse -> string;
  url_Parse_error : string -> option string;
  sseHeader : list (string * string)
}.

(** What one invocation finds around it: the process environment, the
    provider's reply to a request (a response, or the text of the transport
    error), the chat files of a session (or the query's error), and the
    identifier [NewUUID] would draw. *)
Class Env := {
  environ : os.Environ;
  RoundTrip : http.Client -> http.Request -> http.Response + string;
  ListChatFilesWithContentBySessionUUID :
    string -> list sqlc_queries.ChatFile + string;
  NewUUID : string
}.

(** ** Effects *)

Inductive WriterEvent :=
| SetHeader (k v : string)
| Write (p : string)
| Flush.

Inductive NetEvent :=
| Sent (c : http.Client) (r : http.Request)
| Closed.

(** What an invocation did, oldest first: to the consumer, and on the
    network. *)
Record World := {
  consumer : list WriterEvent;
  network : list NetEvent
}.

Definition idle : World := {| consumer := []; network := [] |}.

Inductive Outcome (A : Type) :=
| Return (a : A) (w : World)
| Panic (msg : string) (w : World).

Arguments Return {A} a w.
Arguments Panic {A} msg w.

Definition Go (A : Type) := World -> Outcome A.

Definition ret {A} (a : A) : Go A := fun w => Return a w.

Definition panic {A} (msg : string) : Go A := fun w => Panic msg w.

Definition bind {A B} (m : Go A) (k : A -> Go B) : Go B :=
  fun w =>
    match m w with
    | Return a w' => k a w'
    | Panic msg w' => Panic msg w'
    end.

Declare Scope go_scope.
Delimit Scope go_scope with go.
Notation "x <- m ;; k" := (bind m (fun x => k))
  (at level 100, m at next level, right associativity) : go_scope.
Notation "m ;; k" := (bind m (fun _ => k))
  (at level 100, right associativity) : go_scope.
Open Scope go_scope.

Definition toConsumer (e : WriterEvent) : Go unit :=
  fun w => Return tt {| consumer := consumer w ++ [e]; network := network w |}.

Definition toNetwork (e : NetEvent) : Go unit :=
  fun w => Return tt {| consumer := consumer w; network := network w ++ [e] |}.

(** [defer f(); body]: [f] runs when [body] returns and when it panics. *)
Definition defer {A} (f : Go unit) (body : Go A) : Go A :=
  fun w =>
    match body w with
    | Return a w' =>
        match f w' with Return _ w'' => Return a w'' | Panic m w'' => Panic m w'' end
    | Panic msg w' =>
        match f w' with Return _ w'' => Panic msg w'' | Panic m w'' => Panic m w'' end
    end.

Definition written (w : World) : list string :=
  flat_map (fun e => match e with Write p => [p] | _ => [] end) (consumer w).

(** Index expressions and pointer dereferences, which panic. *)
Definition index0 {A} (l : list A) : Go A :=
  match l with
  | x :: _ => ret x
  | [] => panic "runtime error: index out of range [0] with length 0"
  end.

Definition deref {A} (p : option A) : Go A :=
  match p with
  | Some x => ret x
  | None => panic "runtime error: invalid memory address or nil pointer dereference"
  end.

(** ** The relay *)

Record GeminiClient := { client : http.Client }.

Definition NewGeminiClient : GeminiClient :=
  {| client := {| http.Timeout := 5 * 60 |} |}.

(** The handler [h] of a [GeminiChatModel] gives access to the chat files,
    which are part of [Env]. *)
Record GeminiChatModel := { model_client : GeminiClient }.

Definition NewGeminiChatModel : GeminiChatModel :=
  {| model_client := NewGeminiClient |}.

Definition headerData : bytes := "data: ".

(** The line-processing cap of [handleStreamResponse]. *)
Definition lineCap : Z := 10000.

Definition Result := (option models.LLMAnswer * option APIError)%type.

Section Relay.

Context {imports : Imports} {env : Env}.

Definition NewRequest (method url : string) (body : bytes)
  : http.Request + string :=
  match url_Parse_error url with
  | Some e => inr e
  | None =>
      inl {| http.Method := method; http.URL := url; http.Payload := body;
             http.Header := [] |}
  end.

(** [client.Do req]: the request leaves, the provider's reply comes back. *)
Definition Do (c : http.Client) (req : http.Request)
  : Go (http.Response + string) :=
  toNetwork (Sent c req) ;; ret (RoundTrip c req).

Definition Close : Go unit := toNetwork Closed.

Definition Fprint (p : string) : Go unit := toConsumer (Write p).

(** Modelled from the spec: [setSSEHeader] is not in src; it sets the
    response headers of an event stream, before the first byte is written,
    and writes nothing itself. *)
Definition setSSEHeader : Go unit :=
  fold_right (fun kv m => toConsumer (SetHeader (fst kv) (snd kv)) ;; m)
    (ret tt) sseHeader.

Definition internal (message : string) : APIError :=
  WithMessage ErrInternalUnexpected message.

Definition internalDebug (message debug : string) : APIError :=
  WithDebugInfo (WithMessage ErrInternalUnexpected message) debug.

Definition buildAPIURL (model : string) (stream : bool) : string :=
  let endpoint := "generateContent" in
  let url :=
    "https://generativelanguage.googleapis.com/v1beta/models/" ++ model
    ++ ":" ++ endpoint ++ "?key=$GEMINI_API_KEY" in
  let url :=
    if stream then
      let endpoint := "streamGenerateContent?alt=sse" in
      "https://generativelanguage.googleapis.com/v1beta/models/" ++ model
      ++ ":" ++ endpoint ++ "&key=$GEMINI_API_KEY"
    else url in
  os.ExpandEnv environ url.

(** A reply [inl resp] is a response that is not nil, so the test
    [resp == nil] of the source never holds where it stands. *)
Definition handleRegularResponse (c : http.Client) (req : http.Request)
  : Go Result :=
  r <- Do c req ;;
  match r with
  | inr err =>
      ret (None, Some (internalDebug "Failed to send Gemini API request" err))
  | inl resp =>
      if negb (http.StatusCode resp =? http.StatusOK) then
        let body := fst (io.ReadAll (http.Body resp)) in
        Close ;;
        ret (None,
             Some (internalDebug
                     ("Gemini API error: " ++ itoa (http.StatusCode resp))
                     body))
      else
        defer Close
          (let '(body, err) := io.ReadAll (http.Body resp) in
           match err with
           | Some e =>
               ret (None, Some (internalDebug "Failed to read Gemini response" e))
           | None =>
               match json_Unmarshal body with
               | inr e =>
                   ret (None,
                        Some (internalDebug "Failed to parse Gemini response" e))
               | inl geminiResp =>
                   cand <- index0 (gemini.Candidates geminiResp) ;;
                   part <- index0 (gemini.Parts (gemini.Content cand)) ;;
                   let answer := gemini.Text part in
                   if String.eqb answer "" then
                     ret (None, Some (internal "Empty response from Gemini"))
                   else
                     ret (Some {| models.Answer := answer;
                                  models.AnswerId := "" |}, None)
               end
           end)
  end.

Definition streamUnsupported : APIError :=
  {| HTTPCode := http.StatusInternalServerError;
     Code := "STREAM_UNSUPPORTED";
     Message := "Streaming unsupported by client";
     DebugInfo := "" |}.

(** The loop of [handleStreamResponse]: [pending] are the lines
    [ReadBytes] has still to return, [stop] the error that follows them. *)
Fixpoint streamLoop (answerID : string) (stop : option string)
  (pending : list bytes) (count : Z) (answer : string) : Go Result :=
  if count <? lineCap then
    match pending with
    | [] =>
        match stop with
        | None =>
            ret (Some {| models.Answer := answer;
                         models.AnswerId := answerID |}, None)
        | Some e =>
            ret (None, Some (internalDebug "Error reading stream" e))
        end
    | line :: more =>
        if negb (strings.HasPrefix line headerData) then
          streamLoop answerID stop more (count + 1) answer
        else
          let line := strings.TrimPrefix line headerData in
          if 0 <? Z.of_nat (String.length line) then
            let answer := ParseRespLine line answer in
            let data :=
              json_Marshal (constructChatCompletionStreamReponse answerID answer) in
            Fprint ("data: " ++ data ++ LF ++ LF) ;;
            toConsumer Flush ;;
            streamLoop answerID stop more (count + 1) answer
          else
            streamLoop answerID stop more (count + 1) answer
    end
  else
    ret (Some {| models.Answer := answer; models.AnswerId := answerID |}, None).

Definition handleStreamResponse (m : GeminiChatModel)
  (w : http.ResponseWriter) (req : http.Request) (answerID : string)
  : Go Result :=
  r <- Do (client (model_client m)) req ;;
  match r with
  | inr err =>
      ret (None, Some (internalDebug "Failed to send Gemini API request" err))
  | inl resp =>
      defer Close
        (setSSEHeader ;;
         if negb (http.implementsFlusher w) then
           ret (None, Some streamUnsupported)
         else
           let body := http.Body resp in
           streamLoop answerID (io.err body) (io.lines body) 0 "")
  end.

Definition Stream (m : GeminiChatModel) (w : http.ResponseWriter)
  (chatSession : sqlc_queries.ChatSession) (messages : list models.Message)
  (chatUuid : string) (regenerate stream : bool) : Go Result :=
  let answerID := if negb regenerate then NewUUID else chatUuid in
  match ListChatFilesWithContentBySessionUUID (sqlc_queries.Uuid chatSession) with
  | inr e => ret (None, Some (internalDebug "Failed to get chat files" e))
  | inl chatFiles =>
      match GenGemminPayload messages chatFiles with
      | inr e =>
          ret (None, Some (internalDebug "Failed to generate Gemini payload" e))
      | inl payloadBytes =>
          let url := buildAPIURL (sqlc_queries.Model chatSession) stream in
          match NewRequest "POST" url payloadBytes with
          | inr e =>
              ret (None,
                   Some (internalDebug "Failed to create Gemini API request" e))
          | inl req =>
              let req := http.Header_Set req "Content-Type" "application/json" in
              if stream then handleStreamResponse m w req answerID
              else
                r <- handleRegularResponse (client (model_client m)) req ;;
                let '(llmAnswer, err) := r in
                let llmAnswer :=
                  match llmAnswer with
                  | Some a =>
                      Some {| models.Answer := models.Answer a;
                              models.AnswerId := answerID |}
                  | None => None
                  end in
                a <- deref llmAnswer ;;
                let response :=
                  constructChatCompletionStreamReponse answerID (models.Answer a) in
                let data := json_Marshal response in
                Fprint data ;;
                ret (llmAnswer, err)
          end
      end
  end.

(** The context argument of the source is not used and left out. *)
Definition GenerateChatTitle (model chatText : string)
  : Go (string * option APIError) :=
  let apiKey := os.Getenv environ "GEMINI_API_KEY" in
  if String.eqb apiKey "" then
    ret ("", Some (internal "GEMINI_API_KEY environment variable not set"))
  else if String.eqb (strings.TrimSpace chatText) "" then
    ret ("", Some (ErrValidationInvalidInput "chat text cannot be empty"))
  else
    let messages :=
      [ {| models.Role := "user";
           models.Content :=
             "Generate a concise and descriptive title (max 10 words) for this chat conversation, no special characters." |};
        {| models.Role := "user"; models.Content := chatText |} ] in
    match GenGemminPayload messages [] with
    | inr e =>
        ret ("", Some (internalDebug "Failed to generate Gemini payload" e))
    | inl payloadBytes =>
        let url := buildAPIURL model false in
        match NewRequest "POST" url payloadBytes with
        | inr e =>
            ret ("", Some (internalDebug "Failed to create Gemini API request" e))
        | inl req =>
            let req := http.Header_Set req "Content-Type" "application/json" in
            r <- handleRegularResponse {| http.Timeout := 1 * 60 |} req ;;
            match r with
            | (_, Some err) => ret ("", Some err)
            | (answer, None) =>
                match answer with
                | None => ret ("", Some (internal "Empty response from Gemini"))
                | Some a =>
                    if String.eqb (models.Answer a) "" then
                      ret ("", Some (internal "Empty response from Gemini"))
                    else
                      let title := strings.TrimSpace (models.Answer a) in
                      let title := strings.Trim title QUOTE in
                      let title := strings.Trim title "*" in
                      if String.eqb title "" then
                        ret ("", Some (internal "Invalid title generated"))
                      else ret (firstN title 100, None)
                end
            end
        end
    end.

End Relay.

(** ** Instances to run the relay on

    Stand-ins for the imports: a decoder that takes a body for the text of
    the only part of the only candidate (an empty body does not decode, and
    the body [{}] decodes to an envelope without candidates), a chunk
    parser that appends the payload of a line without its line feed, and an
    encoder that lists the two fields of a delivery. *)

Definition envelope (text : string) : gemini.ResponseBody :=
  {| gemini.Candidates :=
       [ {| gemini.Content :=
              {| gemini.Parts := [ {| gemini.Text := text |} ] |} |} ] |}.

Definition sample_decode (body : bytes) : gemini.ResponseBody + string :=
  if String.eqb body "" then inr "unexpected end of JSON input"
  else if String.eqb body "{}" then inl {| gemini.Candidates := [] |}
  else inl (envelope body).

Definition sample_parse (line : bytes) (answer : string) : string :=
  answer ++ strings.trimRightSet line LF.

Definition sample_encode (r : ChatCompletionStreamResponse) : string :=
  "{id:" ++ DeliveryID r ++ ",text:" ++ DeliveryText r ++ "}".

Definition imports_with (decode : bytes -> gemini.ResponseBody + string)
  : Imports :=
  {| ErrInternalUnexpected :=
       {| HTTPCode := 500; Code := "INTN_001";
          Message := "An unexpected error occurred"; DebugInfo := "" |};
     ErrValidationInvalidInput := fun detail =>
       {| HTTPCode := 400; Code := "VALD_001"; Message := detail;
          DebugInfo := "" |};
     GenGemminPayload := fun messages _ =>
       inl (String.concat "|" (map models.Content messages));
     ParseRespLine := sample_parse;
     json_Unmarshal := decode;
     json_Marshal := sample_encode;
     url_Parse_error := fun _ => None;
     sseHeader :=
       [ ("Content-Type", "text/event-stream"); ("Cache-Control", "no-cache");
         ("Connection", "keep-alive") ] |}.

Definition sample_imports : Imports := imports_with sample_decode.

(** An environment with the credential [key] (or none) and a provider that
    answers by [reply]. *)
Definition sample_env (key : option string)
  (reply : http.Request -> http.Response + string) : Env :=
  {| environ := fun name =>
       if String.eqb name "GEMINI_API_KEY" then key else None;
     RoundTrip := fun _ req => reply req;
     ListChatFilesWithContentBySessionUUID := fun _ => inl [];
     NewUUID := "0b6a3f0e" |}.

Definition whole (status : Z) (body : bytes) : http.Response :=
  {| http.StatusCode := status;
     http.Body := {| io.lines := []; io.rest := body; io.err := None |} |}.

Definition streamed (ls : list bytes) (stop : option string) : http.Response :=
  {| http.StatusCode := 200;
     http.Body := {| io.lines := ls; io.rest := ""; io.err := stop |} |}.

Definition sample_request : http.Request :=
  {| http.Method := "POST";
     http.URL := "https://generativelanguage.googleapis.com/v1beta/models/gemini-pro:generateContent?key=s3cr3t";
     http.Payload := "{}";
     http.Header := [("Content-Type", "application/json")] |}.

Definition sample_session : sqlc_queries.ChatSession :=
  {| sqlc_queries.Uuid := "session-1"; sqlc_queries.Model := "gemini-pro" |}.

Definition flushing : http.ResponseWriter := {| http.implementsFlusher := true |}.
Definition buffering : http.ResponseWriter := {| http.implementsFlusher := false |}.

(** ** What the streaming path computes

    The loop of [handleStreamResponse] read as two folds over the lines it
    processes: the text it accumulates and what it sends to the consumer. *)

Section Folds.

Context {imports : Imports}.

(** A line counts when it carries the prefix and something after it. *)
Definition significant (line : bytes) : bool :=
  strings.HasPrefix line headerData.

Definition effective (line : bytes) : bool :=
  significant line
  && (0 <? Z.of_nat (String.length (strings.TrimPrefix line headerData))).

Definition fold1 (line : bytes) (answer : string) : string :=
  if effective line
  then ParseRespLine (strings.TrimPrefix line headerData) answer
  else answer.

Fixpoint accumulate (ls : list bytes) (answer : string) : string :=
  match ls with
  | [] => answer
  | line :: more => accumulate more (fold1 line answer)
  end.

Definition delivery (answerID answer : string) : list WriterEvent :=
  [ Write ("data: "
           ++ json_Marshal (constructChatCompletionStreamReponse answerID answer)
           ++ LF ++ LF);
    Flush ].

Fixpoint deliveries (answerID : string) (ls : list bytes) (answer : string)
  : list WriterEvent :=
  match ls with
  | [] => []
  | line :: more =>
      (if effective line then delivery answerID (fold1 line answer) else [])
      ++ deliveries answerID more (fold1 line answer)
  end.

Definition headerEvents : list WriterEvent :=
  map (fun kv => SetHeader (fst kv) (snd kv)) sseHeader.

End Folds.

(** [w] after more events. *)
Definition later (w : World) (cs : list WriterEvent) (ns : list NetEvent)
  : World :=
  {| consumer := consumer w ++ cs; network := network w ++ ns |}.

Definition completed (answerID answer : string) : Result :=
  (Some {| models.Answer := answer; models.AnswerId := answerID |}, None).

(** More than the cap can take: 10000 blank lines, then one event. *)
Definition past_cap : list bytes :=
  repeat LF (Z.to_nat lineCap) ++ [ "data: x" ++ LF ].

(** A provider that cannot be reached; net/http reports the failure as a
    [url.Error], whose text quotes the URL of the request. *)
Definition unreachable (req : http.Request) : http.Response + string :=
  inr ("Post " ++ QUOTE ++ http.URL req ++ QUOTE
       ++ ": dial tcp: lookup generativelanguage.googleapis.com: no such host").

(** The cause of a failed connection alone, without the URL that net/http
    puts before it. *)
Definition refused (_ : http.Request) : http.Response + string :=
  inr "dial tcp 142.250.0.1:443: connect: connection refused".

(** ** What title generation computes *)

Definition titleMessages (chatText : string) : list models.Message :=
  [ {| models.Role := "user";
       models.Content :=
         "Generate a concise and descriptive title (max 10 words) for this chat conversation, no special characters." |};
    {| models.Role := "user"; models.Content := chatText |} ].

(** The three trims of [GenerateChatTitle], in the order of the source. *)
Definition cleaned (answer : string) : string :=
  strings.Trim (strings.Trim (strings.TrimSpace answer) QUOTE) "*".

(** ** Errors and the credential *)

Section Errors.

Context {imports : Imports} {env : Env}.

(** [Raised e]: one of the four operations returned the error [e]. *)
Inductive Raised (e : APIError) : Prop :=
| raised_regular (c : http.Client) (req : http.Request) (w w' : World)
    (a : option models.LLMAnswer) :
    handleRegularResponse c req w = Return (a, Some e) w' -> Raised e
| raised_stream (m : GeminiChatModel) (wr : http.ResponseWriter)
    (req : http.Request) (answerID : string) (w w' : World)
    (a : option models.LLMAnswer) :
    handleStreamResponse m wr req answerID w = Return (a, Some e) w' -> Raised e
| raised_Stream (m : GeminiChatModel) (wr : http.ResponseWriter)
    (chatSession : sqlc_queries.ChatSession) (messages : list models.Message)
    (chatUuid : string) (regenerate stream : bool) (w w' : World)
    (a : option models.LLMAnswer) :
    Stream m wr chatSession messages chatUuid regenerate stream w
    = Return (a, Some e) w' -> Raised e
| raised_title (model chatText title : string) (w w' : World) :
    GenerateChatTitle model chatText w = Return (title, Some e) w' -> Raised e.

(** [Supplied message t]: a collaborator of the relay failed with the text
    [t], at the step whose failure the relay reports under [message]: the
    query for the chat files, the payload builder, the parse of the request
    URL (which holds the key), the transport, the provider (status and
    body), the read of the body, the decoder. *)
Inductive Supplied : string -> string -> Prop :=
| supplied_files (uuid t : string) :
    ListChatFilesWithContentBySessionUUID uuid = inr t ->
    Supplied "Failed to get chat files" t
| supplied_payload (messages : list models.Message)
    (files : list sqlc_queries.ChatFile) (t : string) :
    GenGemminPayload messages files = inr t ->
    Supplied "Failed to generate Gemini payload" t
| supplied_url (model : string) (stream : bool) (t : string) :
    url_Parse_error (buildAPIURL model stream) = Some t ->
    Supplied "Failed to create Gemini API request" t
| supplied_send (c : http.Client) (req : http.Request) (t : string) :
    RoundTrip c req = inr t ->
    Supplied "Failed to send Gemini API request" t
| supplied_status (c : http.Client) (req : http.Request)
    (resp : http.Response) :
    RoundTrip c req = inl resp ->
    http.StatusCode resp <> http.StatusOK ->
    Supplied ("Gemini API error: " ++ itoa (http.StatusCode resp))
      (fst (io.ReadAll (http.Body resp)))
| supplied_read (c : http.Client) (req : http.Request)
    (resp : http.Response) (t : string) :
    RoundTrip c req = inl resp ->
    io.err (http.Body resp) = Some t ->
    Supplied "Failed to read Gemini response" t
| supplied_parse (c : http.Client) (req : http.Request)
    (resp : http.Response) (t : string) :
    RoundTrip c req = inl resp ->
    json_Unmarshal (fst (io.ReadAll (http.Body resp))) = inr t ->
    Supplied "Failed to parse Gemini response" t
| supplied_stream (c : http.Client) (req : http.Request)
    (resp : http.Response) (t : string) :
    RoundTrip c req = inl resp ->
    io.err (http.Body resp) = Some t ->
    Supplied "Error reading stream" t.

(** The messages of the errors that embed no text. *)
Definition bare_messages : list string :=
  [ "Empty response from Gemini";
    "GEMINI_API_KEY environment variable not set";
    "Invalid title generated" ].

(** [Relayed e]: [e] is one of the errors the relay builds, with nothing
    taken out.  Either it is the internal error under the message of a
    failed step, with the text the collaborator supplied as debug detail:
    then a key occurs in the debug detail exactly when it occurs in that
    text.  Or it is the internal error under a bare message, with the debug
    detail of [ErrInternalUnexpected]; or the validation error for the
    empty transcript; or the STREAM_UNSUPPORTED error, whose debug detail is
    empty. *)
Definition Relayed (e : APIError) : Prop :=
  (exists message t,
     Supplied message t
     /\ e = internalDebug message t
     /\ DebugInfo e = t
     /\ forall key, strings.Contains (DebugInfo e) key = strings.Contains t key)
  \/ (exists message,
        In message bare_messages
        /\ e = internal message
        /\ DebugInfo e = DebugInfo ErrInternalUnexpected)
  \/ e = ErrValidationInvalidInput "chat text cannot be empty"
  \/ (e = streamUnsupported /\ DebugInfo e = "").

End Errors.

(** The provider turning down a request that carries no valid key. *)
Definition denied : http.Response :=
  {| http.StatusCode := 403;
     http.Body :=
       {| io.lines :=
            [ "{" ++ LF; "  error: PERMISSION_DENIED" ++ LF; "}" ++ LF ];
          io.rest := "";
          io.err := None |} |}.

(** ** What an invocation leaves behind, and what the consumer sees *)

Definition world_of {A} (o : Outcome A) : World :=
  match o with
  | Return _ w => w
  | Panic _ w => w
  end.

(** The events on the network that one exchange adds: the request, and the
    release of the body when there was a response. *)
Definition exchange (c : http.Client) (req : http.Request)
  (reply : http.Response + string) : list NetEvent :=
  Sent c req :: match reply with inl _ => [Closed] | inr _ => [] end.

Section Forwarding.

Context {imports : Imports}.

(** The payload of one partial delivery. *)
Definition frame (answerID text : string) : string :=
  "data: "
  ++ json_Marshal (constructChatCompletionStreamReponse answerID text)
  ++ LF ++ LF.

(** The cumulative texts the loop forwards, one for each line that counts. *)
Fixpoint partials (ls : list bytes) (answer : string) : list string :=
  match ls with
  | [] => []
  | line :: more =>
      ((if effective line then [fold1 line answer] else [])
       ++ partials more (fold1 line answer))%list
  end.

End Forwarding.

(** A model name without a dollar sign holds no reference to a variable. *)
Definition plain (s : string) : bool := negb (strings.mem "$" s).

Definition apiBase : string :=
  "https://generativelanguage.googleapis.com/v1beta/models/".

(** A response with another status and an unfinished last line. *)
Definition ragged (status : Z) (ls : list bytes) (tail : bytes)
  (stop : option string) : http.Response :=
  {| http.StatusCode := status;
     http.Body := {| io.lines := ls; io.rest := tail; io.err := stop |} |}.

(** An environment whose database cannot be reached. *)
Definition offline_env : Env :=
  {| environ := fun _ => None;
     RoundTrip := fun _ req => refused req;
     ListChatFilesWithContentBySessionUUID := fun _ =>
       inr "pq: the database system is shutting down";
     NewUUID := "0b6a3f0e" |}.

(** ** The library functions on examples *)

Example TrimSpace_ascii :
  strings.TrimSpace ("  " ++ LF ++ "a b " ++ LF) = "a b".
Proof. reflexivity. Qed.

Example TrimSpace_nbsp :
  strings.TrimSpace (strings.utf8 [194; 160; 97; 226; 128; 137]%nat) = "a".
Proof. reflexivity. Qed.

Example Trim_all_layers :
  strings.Trim (QUOTE ++ QUOTE ++ "a" ++ QUOTE) QUOTE = "a".
Proof. reflexivity. Qed.

Example itoa_404 : itoa 404 = "404".
Proof. reflexivity. Qed.

Example Expand_forms :
  os.Expand "a$X-${Y}$$9${}$" (fun n => "<" ++ n ++ ">") = "a<X>-<Y><$>9$".
Proof. reflexivity. Qed.

(** ** Running the relay *)

Lemma later_nil (w : World) : later w [] [] = w.
Proof. destruct w; unfold later; simpl. now rewrite !app_nil_r. Qed.

Lemma later_later (w : World) cs ns cs' ns' :
  later (later w cs ns) cs' ns' = later w (cs ++ cs') (ns ++ ns').
Proof. unfold later; simpl. now rewrite !app_assoc. Qed.

Lemma toConsumer_run (e : WriterEvent) (w : World) :
  toConsumer e w = Return tt (later w [e] []).
Proof. unfold toConsumer, later. now rewrite app_nil_r. Qed.

Lemma toNetwork_run (e : NetEvent) (w : World) :
  toNetwork e w = Return tt (later w [] [e]).
Proof. unfold toNetwork, later. now rewrite app_nil_r. Qed.

Lemma written_later (w : World) cs ns :
  written (later w cs ns)
  = (written w
     ++ flat_map (fun e => match e with Write p => [p] | _ => [] end) cs)%list.
Proof. unfold written, later; simpl. apply flat_map_app. Qed.

Ltac tidy := cbn [app]; rewrite ?app_nil_r; try reflexivity.

Section Runs.

Context {imports : Imports} {env : Env}.

Lemma setSSEHeader_run (w : World) :
  setSSEHeader w = Return tt (later w headerEvents []).
Proof.
  unfold setSSEHeader, headerEvents. revert w.
  induction sseHeader as [|kv hs IH]; intro w; simpl.
  - unfold ret. now rewrite later_nil.
  - unfold bind. rewrite toConsumer_run, IH, later_later. reflexivity.
Qed.

Lemma Do_run (c : http.Client) (req : http.Request) (w : World) :
  Do c req w = Return (RoundTrip c req) (later w [] [Sent c req]).
Proof. unfold Do, bind, ret. now rewrite toNetwork_run. Qed.

Lemma budget_step (count : Z) :
  count < lineCap ->
  Z.to_nat (lineCap - count) = S (Z.to_nat (lineCap - (count + 1))).
Proof. intro H. rewrite <- Z2Nat.inj_succ by lia. f_equal. lia. Qed.

(** The loop processes the lines its budget allows, [lineCap - count] of
    them, and reads the end of the body only if there are fewer. *)
Lemma streamLoop_run (answerID : string) (stop : option string)
  (ls : list bytes) :
  forall (count : Z) (answer : string) (w : World),
    streamLoop answerID stop ls count answer w =
    Return
      (if Z.of_nat (length ls) <? lineCap - count then
         match stop with
         | None => completed answerID (accumulate ls answer)
         | Some e => (None, Some (internalDebug "Error reading stream" e))
         end
       else
         completed answerID
           (accumulate (firstn (Z.to_nat (lineCap - count)) ls) answer))
      (later w
         (deliveries answerID (firstn (Z.to_nat (lineCap - count)) ls) answer)
         []).
Proof.
  induction ls as [|line more IH]; intros count answer w.
  - rewrite firstn_nil. cbn [streamLoop accumulate deliveries length].
    rewrite later_nil.
    destruct (count <? lineCap) eqn:Hc.
    + apply Z.ltb_lt in Hc.
      replace (Z.of_nat 0 <? lineCap - count) with true
        by (symmetry; apply Z.ltb_lt; lia).
      destruct stop; reflexivity.
    + apply Z.ltb_ge in Hc.
      replace (Z.of_nat 0 <? lineCap - count) with false
        by (symmetry; apply Z.ltb_ge; lia).
      reflexivity.
  - cbn [streamLoop].
    destruct (count <? lineCap) eqn:Hc.
    + apply Z.ltb_lt in Hc.
      rewrite (budget_step count Hc). cbn [firstn accumulate deliveries].
      replace (Z.of_nat (length (line :: more)) <? lineCap - count)
        with (Z.of_nat (length more) <? lineCap - (count + 1))
        by (cbn [length]; destruct (Z.ltb_spec (Z.of_nat (length more))
                                      (lineCap - (count + 1)));
            symmetry; [apply Z.ltb_lt | apply Z.ltb_ge]; lia).
      unfold fold1, effective, significant.
      destruct (strings.HasPrefix line headerData) eqn:Hp; cbn [negb andb].
      * destruct (0 <? Z.of_nat (String.length (strings.TrimPrefix line headerData)))
          eqn:Hl.
        -- unfold bind, Fprint. rewrite !toConsumer_run, IH, !later_later.
           reflexivity.
        -- rewrite IH. reflexivity.
      * rewrite IH. reflexivity.
    + apply Z.ltb_ge in Hc.
      replace (Z.to_nat (lineCap - count)) with O by lia.
      replace (Z.of_nat (length (line :: more)) <? lineCap - count) with false
        by (symmetry; apply Z.ltb_ge; lia).
      cbn [firstn accumulate deliveries]. now rewrite later_nil.
Qed.

(** [handleStreamResponse] once the request got a response. *)
Lemma handleStreamResponse_run (m : GeminiChatModel) (wr : http.ResponseWriter)
  (req : http.Request) (answerID : string) (resp : http.Response) (w : World) :
  RoundTrip (client (model_client m)) req = inl resp ->
  handleStreamResponse m wr req answerID w =
  if http.implementsFlusher wr then
    let ls := io.lines (http.Body resp) in
    let seen := firstn (Z.to_nat lineCap) ls in
    Return
      (if Z.of_nat (length ls) <? lineCap then
         match io.err (http.Body resp) with
         | None => completed answerID (accumulate ls "")
         | Some e => (None, Some (internalDebug "Error reading stream" e))
         end
       else completed answerID (accumulate seen ""))
      (later w (headerEvents ++ deliveries answerID seen "")
         [Sent (client (model_client m)) req; Closed])
  else
    Return (None, Some streamUnsupported)
      (later w headerEvents [Sent (client (model_client m)) req; Closed]).
Proof.
  intro Hr. unfold handleStreamResponse, bind, defer.
  rewrite Do_run, Hr, setSSEHeader_run.
  destruct (http.implementsFlusher wr); cbn [negb].
  - rewrite streamLoop_run. rewrite Z.sub_0_r.
    unfold Close. rewrite toNetwork_run, !later_later. tidy.
  - unfold ret, Close. rewrite toNetwork_run, !later_later. tidy.
Qed.

End Runs.

(** ** The single-shot path *)

Section SingleShot.

Context {imports : Imports} {env : Env}.

(** [handleRegularResponse], branch by branch. *)
Lemma handleRegularResponse_run (c : http.Client) (req : http.Request)
  (w : World) :
  handleRegularResponse c req w =
  match RoundTrip c req with
  | inr e =>
      Return (None, Some (internalDebug "Failed to send Gemini API request" e))
        (later w [] [Sent c req])
  | inl resp =>
      let w' := later w [] [Sent c req; Closed] in
      let body := fst (io.ReadAll (http.Body resp)) in
      if negb (http.StatusCode resp =? http.StatusOK) then
        Return (None,
                Some (internalDebug
                        ("Gemini API error: " ++ itoa (http.StatusCode resp))
                        body)) w'
      else
        match snd (io.ReadAll (http.Body resp)) with
        | Some e =>
            Return (None, Some (internalDebug "Failed to read Gemini response" e)) w'
        | None =>
            match json_Unmarshal body with
            | inr e =>
                Return (None,
                        Some (internalDebug "Failed to parse Gemini response" e)) w'
            | inl decoded =>
                match gemini.Candidates decoded with
                | [] => Panic "runtime error: index out of range [0] with length 0" w'
                | cand :: _ =>
                    match gemini.Parts (gemini.Content cand) with
                    | [] =>
                        Panic "runtime error: index out of range [0] with length 0" w'
                    | part :: _ =>
                        if String.eqb (gemini.Text part) "" then
                          Return (None, Some (internal "Empty response from Gemini")) w'
                        else
                          Return (Some {| models.Answer := gemini.Text part;
                                          models.AnswerId := "" |}, None) w'
                    end
                end
            end
        end
  end.
Proof.
  unfold handleRegularResponse, bind. rewrite Do_run.
  destruct (RoundTrip c req) as [resp|e]; [|reflexivity].
  cbv zeta.
  destruct (negb (http.StatusCode resp =? http.StatusOK)).
  - unfold Close, ret. rewrite toNetwork_run, later_later. tidy.
  - unfold defer, Close.
    destruct (io.ReadAll (http.Body resp)) as [body [e|]]; cbn [fst snd].
    + unfold ret. rewrite toNetwork_run, later_later. tidy.
    + destruct (json_Unmarshal body) as [decoded|e].
      * unfold bind, index0.
        destruct (gemini.Candidates decoded) as [|cand cands].
        { unfold panic. rewrite toNetwork_run, later_later. tidy. }
        unfold ret at 1.
        destruct (gemini.Parts (gemini.Content cand)) as [|part parts].
        { unfold panic. rewrite toNetwork_run, later_later. tidy. }
        unfold ret at 1.
        destruct (String.eqb (gemini.Text part) "");
          unfold ret; rewrite toNetwork_run, later_later; tidy.
      * unfold ret. rewrite toNetwork_run, later_later. tidy.
Qed.

(** An answer of the single-shot path has a text, and comes alone. *)
Lemma handleRegularResponse_answer (c : http.Client) (req : http.Request)
  (w w' : World) (a : models.LLMAnswer) (e : option APIError) :
  handleRegularResponse c req w = Return (Some a, e) w' ->
  models.Answer a <> "" /\ models.AnswerId a = "" /\ e = None.
Proof.
  rewrite handleRegularResponse_run.
  destruct (RoundTrip c req) as [resp|t]; [|discriminate].
  cbv zeta.
  destruct (negb (http.StatusCode resp =? http.StatusOK)); [discriminate|].
  destruct (snd (io.ReadAll (http.Body resp))); [discriminate|].
  destruct (json_Unmarshal (fst (io.ReadAll (http.Body resp))))
    as [decoded|t]; [|discriminate].
  destruct (gemini.Candidates decoded) as [|cand cands]; [discriminate|].
  destruct (gemini.Parts (gemini.Content cand)) as [|part parts];
    [discriminate|].
  destruct (String.eqb (gemini.Text part) "") eqn:Ht; [discriminate|].
  intro H; inversion H; subst. cbn.
  apply String.eqb_neq in Ht. auto.
Qed.

(** C1, as the code has it: when the decoded envelope of a 200 response has
    a first candidate with a first part, the single-shot path returns the
    error "Empty response from Gemini" and no answer exactly when the text
    of that part is the empty string; the text is not trimmed, so any other
    text, white space included, comes back as the answer. *)
Theorem handleRegularResponse_first_text (c : http.Client)
  (req : http.Request) (resp : http.Response) (body : bytes)
  (decoded : gemini.ResponseBody) (cand : gemini.Candidate)
  (cands : list gemini.Candidate) (part : gemini.Part)
  (parts : list gemini.Part) (w : World) :
  RoundTrip c req = inl resp ->
  http.StatusCode resp = http.StatusOK ->
  io.ReadAll (http.Body resp) = (body, None) ->
  json_Unmarshal body = inl decoded ->
  gemini.Candidates decoded = cand :: cands ->
  gemini.Parts (gemini.Content cand) = part :: parts ->
  handleRegularResponse c req w =
  Return
    (if String.eqb (gemini.Text part) ""
     then (None, Some (internal "Empty response from Gemini"))
     else (Some {| models.Answer := gemini.Text part; models.AnswerId := "" |},
           None))
    (later w [] [Sent c req; Closed]).
Proof.
  intros Hr Hs Hb Hd Hc Hp.
  rewrite handleRegularResponse_run, Hr. cbv zeta.
  rewrite Hs, Z.eqb_refl, Hb. cbn [negb fst snd].
  rewrite Hd, Hc, Hp.
  destruct (String.eqb (gemini.Text part) ""); reflexivity.
Qed.

End SingleShot.

Lemma handleRegularResponse_first_text_witness :
  @handleRegularResponse (imports_with (fun _ => inl (envelope "")))
    (sample_env (Some "s3cr3t") (fun _ => inl (whole 200 "{...}")))
    {| http.Timeout := 60 |} sample_request idle
  = Return
      (None,
       Some (@internal (imports_with (fun _ => inl (envelope "")))
               "Empty response from Gemini"))
      (later idle [] [Sent {| http.Timeout := 60 |} sample_request; Closed]).
Proof.
  apply (@handleRegularResponse_first_text
           (imports_with (fun _ => inl (envelope "")))
           (sample_env (Some "s3cr3t") (fun _ => inl (whole 200 "{...}")))
           {| http.Timeout := 60 |} sample_request
           (whole 200 "{...}") "{...}" (envelope "")
           {| gemini.Content :=
                {| gemini.Parts := [ {| gemini.Text := "" |} ] |} |}
           [] {| gemini.Text := "" |} [] idle);
    reflexivity.
Defined.

(** C1 is false as stated: a text of one space is empty after trimming, and
    the single-shot path returns it as the answer. *)
Lemma handleRegularResponse_blank_text_is_answer :
  strings.TrimSpace " " = ""
  /\ @handleRegularResponse (imports_with (fun _ => inl (envelope " ")))
       (sample_env (Some "s3cr3t") (fun _ => inl (whole 200 "{...}")))
       {| http.Timeout := 60 |} sample_request idle
     = Return (Some {| models.Answer := " "; models.AnswerId := "" |}, None)
         (later idle [] [Sent {| http.Timeout := 60 |} sample_request; Closed]).
Proof. split; reflexivity. Qed.

(** An envelope without a candidate: the index expression panics. *)
Example handleRegularResponse_no_candidate :
  @handleRegularResponse sample_imports
    (sample_env (Some "s3cr3t") (fun _ => inl (whole 200 "{}")))
    {| http.Timeout := 60 |} sample_request idle
  = Panic "runtime error: index out of range [0] with length 0"
      (later idle [] [Sent {| http.Timeout := 60 |} sample_request; Closed]).
Proof. reflexivity. Qed.

(** ** The streaming path *)

Section Streaming.

Context {imports : Imports} {env : Env}.

(** C3: when the body holds at least [lineCap] lines, the loop stops at the
    cap and the call returns an answer and no error; the answer is the text
    accumulated over the first [lineCap] lines, and the consumer received
    the deliveries of those lines only. *)
Theorem handleStreamResponse_cap (m : GeminiChatModel)
  (wr : http.ResponseWriter) (req : http.Request) (answerID : string)
  (resp : http.Response) (w : World) :
  RoundTrip (client (model_client m)) req = inl resp ->
  http.implementsFlusher wr = true ->
  lineCap <= Z.of_nat (length (io.lines (http.Body resp))) ->
  handleStreamResponse m wr req answerID w =
  Return
    (Some {| models.Answer :=
               accumulate (firstn (Z.to_nat lineCap) (io.lines (http.Body resp))) "";
             models.AnswerId := answerID |}, None)
    (later w
       (headerEvents
        ++ deliveries answerID
             (firstn (Z.to_nat lineCap) (io.lines (http.Body resp))) "")
       [Sent (client (model_client m)) req; Closed]).
Proof.
  intros Hr Hf Hn.
  rewrite (handleStreamResponse_run m wr req answerID resp w Hr), Hf.
  cbv zeta.
  replace (Z.of_nat (length (io.lines (http.Body resp))) <? lineCap) with false
    by (symmetry; apply Z.ltb_ge; lia).
  reflexivity.
Qed.

(** C4: when the read that ends the body is reached (fewer lines than the
    cap), end of input returns the accumulated text under the answer id and
    no error; any other read error returns the error "Error reading stream"
    and no answer, the accumulated text being dropped. *)
Theorem handleStreamResponse_end_of_input (m : GeminiChatModel)
  (wr : http.ResponseWriter) (req : http.Request) (answerID : string)
  (resp : http.Response) (w : World) :
  RoundTrip (client (model_client m)) req = inl resp ->
  http.implementsFlusher wr = true ->
  Z.of_nat (length (io.lines (http.Body resp))) < lineCap ->
  handleStreamResponse m wr req answerID w =
  Return
    (match io.err (http.Body resp) with
     | None =>
         (Some {| models.Answer := accumulate (io.lines (http.Body resp)) "";
                  models.AnswerId := answerID |}, None)
     | Some e => (None, Some (internalDebug "Error reading stream" e))
     end)
    (later w
       (headerEvents ++ deliveries answerID (io.lines (http.Body resp)) "")
       [Sent (client (model_client m)) req; Closed]).
Proof.
  intros Hr Hf Hn.
  rewrite (handleStreamResponse_run m wr req answerID resp w Hr), Hf.
  cbv zeta.
  replace (Z.of_nat (length (io.lines (http.Body resp))) <? lineCap) with true
    by (symmetry; apply Z.ltb_lt; lia).
  rewrite firstn_all2 by lia.
  reflexivity.
Qed.

(** C8, as the code has it: once the request got a response, a consumer
    that is no [http.Flusher] makes the call return the STREAM_UNSUPPORTED
    error and no answer; the consumer had its headers set and received no
    write, and the outcome does not depend on the body. *)
Theorem handleStreamResponse_unsupported (m : GeminiChatModel)
  (wr : http.ResponseWriter) (req : http.Request) (answerID : string)
  (resp : http.Response) (w : World) :
  RoundTrip (client (model_client m)) req = inl resp ->
  http.implementsFlusher wr = false ->
  handleStreamResponse m wr req answerID w =
    Return (None, Some streamUnsupported)
      (later w headerEvents [Sent (client (model_client m)) req; Closed])
  /\ written (later w headerEvents [Sent (client (model_client m)) req; Closed])
     = written w.
Proof.
  intros Hr Hf. split.
  - now rewrite (handleStreamResponse_run m wr req answerID resp w Hr), Hf.
  - rewrite written_later. unfold headerEvents.
    induction sseHeader as [|kv hs IH]; simpl; [apply app_nil_r | exact IH].
Qed.

End Streaming.

Lemma handleStreamResponse_cap_witness :
  @handleStreamResponse sample_imports
    (sample_env None (fun _ => inl (streamed past_cap None)))
    NewGeminiChatModel flushing sample_request "a1" idle
  = Return (Some {| models.Answer := ""; models.AnswerId := "a1" |}, None)
      (later idle (@headerEvents sample_imports)
         [Sent (client NewGeminiClient) sample_request; Closed]).
Proof.
  etransitivity.
  - apply (@handleStreamResponse_cap sample_imports
             (sample_env None (fun _ => inl (streamed past_cap None)))
             NewGeminiChatModel flushing sample_request "a1"
             (streamed past_cap None) idle).
    + reflexivity.
    + reflexivity.
    + vm_compute. discriminate.
  - vm_compute. reflexivity.
Defined.

Lemma handleStreamResponse_end_of_input_witness :
  @handleStreamResponse sample_imports
    (sample_env None
       (fun _ => inl (streamed ["data: Hel" ++ LF; LF; "data: lo" ++ LF] None)))
    NewGeminiChatModel flushing sample_request "a1" idle
  = Return (Some {| models.Answer := "Hello"; models.AnswerId := "a1" |}, None)
      (later idle
         (@headerEvents sample_imports
          ++ [ Write ("data: {id:a1,text:Hel}" ++ LF ++ LF); Flush;
               Write ("data: {id:a1,text:Hello}" ++ LF ++ LF); Flush ])
         [Sent (client NewGeminiClient) sample_request; Closed]).
Proof.
  etransitivity.
  - apply (@handleStreamResponse_end_of_input sample_imports
             (sample_env None
                (fun _ =>
                   inl (streamed ["data: Hel" ++ LF; LF; "data: lo" ++ LF] None)))
             NewGeminiChatModel flushing sample_request "a1"
             (streamed ["data: Hel" ++ LF; LF; "data: lo" ++ LF] None) idle).
    + reflexivity.
    + reflexivity.
    + vm_compute. reflexivity.
  - reflexivity.
Defined.

(** A read error after two events: the text read so far is not returned. *)
Example handleStreamResponse_read_error :
  @handleStreamResponse sample_imports
    (sample_env None
       (fun _ =>
          inl (streamed ["data: Hel" ++ LF; "data: lo" ++ LF]
                 (Some "unexpected EOF"))))
    NewGeminiChatModel flushing sample_request "a1" idle
  = Return
      (None,
       Some (@internalDebug sample_imports "Error reading stream" "unexpected EOF"))
      (later idle
         (@headerEvents sample_imports
          ++ [ Write ("data: {id:a1,text:Hel}" ++ LF ++ LF); Flush;
               Write ("data: {id:a1,text:Hello}" ++ LF ++ LF); Flush ])
         [Sent (client NewGeminiClient) sample_request; Closed]).
Proof. reflexivity. Qed.

Lemma handleStreamResponse_unsupported_witness :
  @handleStreamResponse sample_imports
    (sample_env None (fun _ => inl (streamed ["data: Hel" ++ LF] None)))
    NewGeminiChatModel buffering sample_request "a1" idle
  = Return (None, Some streamUnsupported)
      (later idle (@headerEvents sample_imports)
         [Sent (client NewGeminiClient) sample_request; Closed])
  /\ written
       (later idle (@headerEvents sample_imports)
          [Sent (client NewGeminiClient) sample_request; Closed])
     = written idle.
Proof.
  apply (@handleStreamResponse_unsupported sample_imports
           (sample_env None (fun _ => inl (streamed ["data: Hel" ++ LF] None)))
           NewGeminiChatModel buffering sample_request "a1"
           (streamed ["data: Hel" ++ LF] None) idle);
    reflexivity.
Defined.

(** C8 is false as stated: with a consumer that cannot flush and a provider
    that cannot be reached, the call returns the error of the failed
    request, not STREAM_UNSUPPORTED. *)
Lemma handleStreamResponse_unsupported_after_dispatch :
  @handleStreamResponse sample_imports (sample_env None refused)
    NewGeminiChatModel buffering sample_request "a1" idle
  = Return
      (None,
       Some {| HTTPCode := 500; Code := "INTN_001";
               Message := "Failed to send Gemini API request";
               DebugInfo := "dial tcp 142.250.0.1:443: connect: connection refused" |})
      (later idle [] [Sent (client NewGeminiClient) sample_request])
  /\ Message (@internalDebug sample_imports "Failed to send Gemini API request"
                "dial tcp 142.250.0.1:443: connect: connection refused")
     <> Message streamUnsupported.
Proof. split; [reflexivity | discriminate]. Qed.

(** ** Lines without the prefix *)

Section Skipping.

Context {imports : Imports}.

Lemma fold1_skipped (line : bytes) (answer : string) :
  significant line = false -> fold1 line answer = answer.
Proof. intro H. unfold fold1, effective. now rewrite H. Qed.

Lemma accumulate_filter (ls : list bytes) :
  forall answer,
    accumulate (filter significant ls) answer = accumulate ls answer.
Proof.
  induction ls as [|line more IH]; intro answer; cbn [filter accumulate].
  - reflexivity.
  - destruct (significant line) eqn:Hs; cbn [accumulate].
    + apply IH.
    + rewrite (fold1_skipped line answer Hs). apply IH.
Qed.

Lemma deliveries_filter (answerID : string) (ls : list bytes) :
  forall answer,
    deliveries answerID (filter significant ls) answer
    = deliveries answerID ls answer.
Proof.
  induction ls as [|line more IH]; intro answer; cbn [filter deliveries].
  - reflexivity.
  - destruct (significant line) eqn:Hs; cbn [deliveries].
    + now rewrite IH.
    + rewrite (fold1_skipped line answer Hs), IH.
      unfold effective. now rewrite Hs.
Qed.

Lemma filter_length_le {A} (f : A -> bool) (l : list A) :
  (length (filter f l) <= length l)%nat.
Proof.
  induction l as [|x l IH]; simpl; [lia|].
  destruct (f x); simpl; lia.
Qed.

(** C5, as the code has it: the cap counts every line, so leaving out the
    lines without the prefix changes nothing as long as the input stays
    within the cap: for at most [lineCap] lines, ended by end of input when
    there are exactly [lineCap], the call with the lines left out has the
    same outcome (answer or error, and what the consumer received). *)
Theorem skip_invariance_within_cap (env1 env2 : Env) (m : GeminiChatModel)
  (wr : http.ResponseWriter) (req : http.Request) (answerID : string)
  (resp1 resp2 : http.Response) (w : World) :
  @RoundTrip env1 (client (model_client m)) req = inl resp1 ->
  @RoundTrip env2 (client (model_client m)) req = inl resp2 ->
  http.implementsFlusher wr = true ->
  io.lines (http.Body resp2) = filter significant (io.lines (http.Body resp1)) ->
  io.err (http.Body resp2) = io.err (http.Body resp1) ->
  Z.of_nat (length (io.lines (http.Body resp1))) <= lineCap ->
  Z.of_nat (length (io.lines (http.Body resp1))) < lineCap
  \/ io.err (http.Body resp1) = None ->
  @handleStreamResponse imports env2 m wr req answerID w
  = @handleStreamResponse imports env1 m wr req answerID w.
Proof.
  intros Hr1 Hr2 Hf Hl He Hn Hend.
  rewrite (@handleStreamResponse_run imports env1 m wr req answerID resp1 w Hr1).
  rewrite (@handleStreamResponse_run imports env2 m wr req answerID resp2 w Hr2).
  rewrite Hf. cbv zeta. rewrite Hl, He.
  set (ls := io.lines (http.Body resp1)) in *.
  pose proof (filter_length_le significant ls) as Hle.
  rewrite !firstn_all2 by lia.
  rewrite accumulate_filter, deliveries_filter.
  f_equal.
  destruct (Z.ltb_spec (Z.of_nat (length ls)) lineCap) as [Hlt|Hge].
  - replace (Z.of_nat (length (filter significant ls)) <? lineCap) with true
      by (symmetry; apply Z.ltb_lt; lia).
    reflexivity.
  - destruct Hend as [Hlt|Hnone]; [lia|].
    rewrite Hnone.
    destruct (Z.of_nat (length (filter significant ls)) <? lineCap); reflexivity.
Qed.

End Skipping.

Lemma skip_invariance_within_cap_witness :
  @handleStreamResponse sample_imports
    (sample_env None
       (fun _ => inl (streamed ["data: Hel" ++ LF; "data: lo" ++ LF] None)))
    NewGeminiChatModel flushing sample_request "a1" idle
  = @handleStreamResponse sample_imports
      (sample_env None
         (fun _ =>
            inl (streamed
                   [LF; "data: Hel" ++ LF; ": ping" ++ LF; LF; "data: lo" ++ LF]
                   None)))
      NewGeminiChatModel flushing sample_request "a1" idle.
Proof.
  apply (@skip_invariance_within_cap sample_imports
           (sample_env None
              (fun _ =>
                 inl (streamed
                        [LF; "data: Hel" ++ LF; ": ping" ++ LF; LF; "data: lo" ++ LF]
                        None)))
           (sample_env None
              (fun _ => inl (streamed ["data: Hel" ++ LF; "data: lo" ++ LF] None)))
           NewGeminiChatModel flushing sample_request "a1"
           (streamed [LF; "data: Hel" ++ LF; ": ping" ++ LF; LF; "data: lo" ++ LF]
              None)
           (streamed ["data: Hel" ++ LF; "data: lo" ++ LF] None) idle);
    try reflexivity.
  - vm_compute. discriminate.
  - left. vm_compute. reflexivity.
Defined.

(** C5 is false as stated: the blank lines of [past_cap] use up the cap, so
    the event after them is never read; with the blank lines removed it is
    read, accumulated and delivered. *)
Lemma skip_invariance_fails_past_cap :
  filter significant past_cap = [ "data: x" ++ LF ]
  /\ @handleStreamResponse sample_imports
       (sample_env None (fun _ => inl (streamed past_cap None)))
       NewGeminiChatModel flushing sample_request "a1" idle
     = Return (Some {| models.Answer := ""; models.AnswerId := "a1" |}, None)
         (later idle (@headerEvents sample_imports)
            [Sent (client NewGeminiClient) sample_request; Closed])
  /\ @handleStreamResponse sample_imports
       (sample_env None (fun _ => inl (streamed [ "data: x" ++ LF ] None)))
       NewGeminiChatModel flushing sample_request "a1" idle
     = Return (Some {| models.Answer := "x"; models.AnswerId := "a1" |}, None)
         (later idle
            (@headerEvents sample_imports
             ++ [ Write ("data: {id:a1,text:x}" ++ LF ++ LF); Flush ])
            [Sent (client NewGeminiClient) sample_request; Closed]).
Proof. repeat split; vm_compute; reflexivity. Qed.

(** ** Title generation *)

Lemma take_length (n : nat) (s : string) :
  (String.length (strings.take n s) <= n)%nat.
Proof.
  revert s. induction n as [|n IH]; intro s; [simpl; lia|].
  destruct s as [|c t]; simpl; [lia|]. specialize (IH t). lia.
Qed.

Lemma firstN_length (s : string) (n : Z) :
  0 <= n -> Z.of_nat (String.length (firstN s n)) <= n.
Proof.
  intro Hn. unfold firstN.
  pose proof (take_length (Z.to_nat n) s). lia.
Qed.

Section Title.

Context {imports : Imports} {env : Env}.

(** C7, as the code has it: on an answer of the single-shot path the title
    is the answer with surrounding white space removed, then every leading
    and trailing double quote, then every leading and trailing asterisk
    (all layers, not one, and no second trim of white space); an empty
    result is the error "Invalid title generated", any other is cut to its
    first 100 characters. *)
Theorem GenerateChatTitle_postprocess (model chatText : string)
  (payload : bytes) (req : http.Request) (a : models.LLMAnswer)
  (w w' : World) :
  os.Getenv environ "GEMINI_API_KEY" <> "" ->
  strings.TrimSpace chatText <> "" ->
  GenGemminPayload (titleMessages chatText) [] = inl payload ->
  NewRequest "POST" (buildAPIURL model false) payload = inl req ->
  handleRegularResponse {| http.Timeout := 1 * 60 |}
    (http.Header_Set req "Content-Type" "application/json") w
  = Return (Some a, None) w' ->
  GenerateChatTitle model chatText w =
    Return
      (if String.eqb (cleaned (models.Answer a)) ""
       then ("", Some (internal "Invalid title generated"))
       else (firstN (cleaned (models.Answer a)) 100, None))
      w'
  /\ Z.of_nat (String.length (firstN (cleaned (models.Answer a)) 100)) <= 100.
Proof.
  intros Hk Ht Hp Hq Hr. split; [|apply firstN_length; lia].
  destruct (handleRegularResponse_answer _ _ _ _ _ _ Hr) as [Ha _].
  unfold GenerateChatTitle.
  apply String.eqb_neq in Hk, Ht, Ha.
  rewrite Hk, Ht. fold (titleMessages chatText). rewrite Hp, Hq.
  unfold bind. rewrite Hr, Ha. cbv zeta. fold (cleaned (models.Answer a)).
  destruct (String.eqb (cleaned (models.Answer a)) ""); reflexivity.
Qed.

(** C10: without the credential, a blank transcript does not matter: the
    call returns the error "GEMINI_API_KEY environment variable not set",
    sends nothing, and the error is not the validation error (whose code
    differs from that of the internal error). *)
Theorem GenerateChatTitle_credential_first (model chatText : string)
  (w : World) :
  os.Getenv environ "GEMINI_API_KEY" = "" ->
  strings.TrimSpace chatText = "" ->
  Code (ErrValidationInvalidInput "chat text cannot be empty")
  <> Code ErrInternalUnexpected ->
  GenerateChatTitle model chatText w =
    Return ("", Some (internal "GEMINI_API_KEY environment variable not set")) w
  /\ internal "GEMINI_API_KEY environment variable not set"
     <> ErrValidationInvalidInput "chat text cannot be empty".
Proof.
  intros Hk _ Hkind. split.
  - unfold GenerateChatTitle. rewrite Hk. reflexivity.
  - intro Heq. apply Hkind. rewrite <- Heq. reflexivity.
Qed.

End Title.

Lemma GenerateChatTitle_postprocess_witness :
  @GenerateChatTitle sample_imports
    (sample_env (Some "s3cr3t")
       (fun _ => inl (whole 200 (QUOTE ++ "Japan Trip Planning" ++ QUOTE))))
    "gemini-pro" "Let's plan a trip to Japan" idle
  = Return ("Japan Trip Planning", None)
      (later idle []
         [ Sent {| http.Timeout := 60 |}
             {| http.Method := "POST";
                http.URL := "https://generativelanguage.googleapis.com/v1beta/models/gemini-pro:generateContent?key=s3cr3t";
                http.Payload := "Generate a concise and descriptive title (max 10 words) for this chat conversation, no special characters.|Let's plan a trip to Japan";
                http.Header := [("Content-Type", "application/json")] |};
           Closed ])
  /\ Z.of_nat (String.length "Japan Trip Planning") <= 100.
Proof.
  apply (@GenerateChatTitle_postprocess sample_imports
           (sample_env (Some "s3cr3t")
              (fun _ => inl (whole 200 (QUOTE ++ "Japan Trip Planning" ++ QUOTE))))
           "gemini-pro" "Let's plan a trip to Japan"
           "Generate a concise and descriptive title (max 10 words) for this chat conversation, no special characters.|Let's plan a trip to Japan"
           {| http.Method := "POST";
              http.URL := "https://generativelanguage.googleapis.com/v1beta/models/gemini-pro:generateContent?key=s3cr3t";
              http.Payload := "Generate a concise and descriptive title (max 10 words) for this chat conversation, no special characters.|Let's plan a trip to Japan";
              http.Header := [] |}
           {| models.Answer := QUOTE ++ "Japan Trip Planning" ++ QUOTE;
              models.AnswerId := "" |}
           idle).
  - vm_compute. discriminate.
  - vm_compute. discriminate.
  - reflexivity.
  - reflexivity.
  - reflexivity.
Defined.

(** C7 is false as stated: of two layers of quotes around the reply, both
    are removed, where stripping a single layer would leave one. *)
Lemma GenerateChatTitle_strips_every_layer :
  @GenerateChatTitle sample_imports
    (sample_env (Some "s3cr3t")
       (fun _ => inl (whole 200 (QUOTE ++ QUOTE ++ "Kyoto" ++ QUOTE ++ QUOTE))))
    "gemini-pro" "Let's plan a trip to Japan" idle
  = Return ("Kyoto", None)
      (later idle []
         [ Sent {| http.Timeout := 60 |}
             {| http.Method := "POST";
                http.URL := "https://generativelanguage.googleapis.com/v1beta/models/gemini-pro:generateContent?key=s3cr3t";
                http.Payload := "Generate a concise and descriptive title (max 10 words) for this chat conversation, no special characters.|Let's plan a trip to Japan";
                http.Header := [("Content-Type", "application/json")] |};
           Closed ])
  /\ "Kyoto" <> QUOTE ++ "Kyoto" ++ QUOTE.
Proof. split; [reflexivity | discriminate]. Qed.

(** A reply of a space between quotes: the title is the space. *)
Example GenerateChatTitle_blank_title :
  cleaned (QUOTE ++ " " ++ QUOTE) = " ".
Proof. reflexivity. Qed.

Lemma GenerateChatTitle_credential_first_witness :
  @GenerateChatTitle sample_imports (sample_env None refused)
    "gemini-pro" "   " idle
  = Return
      ("", Some (@internal sample_imports
                   "GEMINI_API_KEY environment variable not set")) idle
  /\ @internal sample_imports "GEMINI_API_KEY environment variable not set"
     <> @ErrValidationInvalidInput sample_imports "chat text cannot be empty".
Proof.
  apply (@GenerateChatTitle_credential_first sample_imports
           (sample_env None refused) "gemini-pro" "   " idle).
  - reflexivity.
  - reflexivity.
  - vm_compute. discriminate.
Defined.

(** ** The credential and the errors *)

Section Disclosure.

Context {imports : Imports} {env : Env}.

Lemma relayed_supplied (message t : string) :
  Supplied message t -> Relayed (internalDebug message t).
Proof.
  intro Hs. left. exists message, t. repeat split. exact Hs.
Qed.

Lemma relayed_bare (message : string) :
  In message bare_messages -> Relayed (internal message).
Proof.
  intro Hm. right; left. exists message. repeat split. exact Hm.
Qed.

Ltac listed := simpl; tauto.

Lemma regular_relayed (c : http.Client) (req : http.Request) (w w' : World)
  (a : option models.LLMAnswer) (e : APIError) :
  handleRegularResponse c req w = Return (a, Some e) w' -> Relayed e.
Proof.
  rewrite handleRegularResponse_run.
  destruct (RoundTrip c req) as [resp|t] eqn:Hr.
  - cbv zeta.
    destruct (negb (http.StatusCode resp =? http.StatusOK)) eqn:Hs.
    + intro H; inversion H; subst. apply relayed_supplied.
      apply (supplied_status c req resp Hr).
      apply negb_true_iff, Z.eqb_neq in Hs. exact Hs.
    + destruct (snd (io.ReadAll (http.Body resp))) as [t|] eqn:He.
      * intro H; inversion H; subst. apply relayed_supplied.
        apply (supplied_read c req resp t Hr). exact He.
      * destruct (json_Unmarshal (fst (io.ReadAll (http.Body resp))))
          as [decoded|t] eqn:Hd.
        -- destruct (gemini.Candidates decoded) as [|cand cands];
             [discriminate|].
           destruct (gemini.Parts (gemini.Content cand)) as [|part parts];
             [discriminate|].
           destruct (String.eqb (gemini.Text part) ""); [|discriminate].
           intro H; inversion H; subst. apply relayed_bare. listed.
        -- intro H; inversion H; subst. apply relayed_supplied.
           apply (supplied_parse c req resp t Hr Hd).
  - intro H; inversion H; subst. apply relayed_supplied.
    apply (supplied_send c req t Hr).
Qed.

Lemma stream_relayed (m : GeminiChatModel) (wr : http.ResponseWriter)
  (req : http.Request) (answerID : string) (w w' : World)
  (a : option models.LLMAnswer) (e : APIError) :
  handleStreamResponse m wr req answerID w = Return (a, Some e) w' ->
  Relayed e.
Proof.
  destruct (RoundTrip (client (model_client m)) req) as [resp|t] eqn:Hr.
  - rewrite (handleStreamResponse_run m wr req answerID resp w Hr).
    destruct (http.implementsFlusher wr).
    + cbv zeta.
      destruct (Z.of_nat (length (io.lines (http.Body resp))) <? lineCap);
        [|discriminate].
      destruct (io.err (http.Body resp)) as [t|] eqn:He; [|discriminate].
      intro H; inversion H; subst. apply relayed_supplied.
      apply (supplied_stream _ req resp t Hr He).
    + intro H; inversion H; subst.
      right; right; right. split; reflexivity.
  - unfold handleStreamResponse, bind. rewrite Do_run, Hr.
    intro H; inversion H; subst. apply relayed_supplied.
    apply (supplied_send _ req t Hr).
Qed.

Lemma NewRequest_error (model : string) (stream : bool) (payload : bytes)
  (t : string) :
  NewRequest "POST" (buildAPIURL model stream) payload = inr t ->
  Supplied "Failed to create Gemini API request" t.
Proof.
  unfold NewRequest.
  destruct (url_Parse_error (buildAPIURL model stream)) as [t'|] eqn:Hu;
    [|discriminate].
  intro H; inversion H; subst. exact (supplied_url model stream t Hu).
Qed.

Lemma Stream_relayed (m : GeminiChatModel) (wr : http.ResponseWriter)
  (chatSession : sqlc_queries.ChatSession) (messages : list models.Message)
  (chatUuid : string) (regenerate stream : bool) (w w' : World)
  (a : option models.LLMAnswer) (e : APIError) :
  Stream m wr chatSession messages chatUuid regenerate stream w
  = Return (a, Some e) w' ->
  Relayed e.
Proof.
  unfold Stream.
  destruct (ListChatFilesWithContentBySessionUUID (sqlc_queries.Uuid chatSession))
    as [files|t] eqn:Hf.
  - destruct (GenGemminPayload messages files) as [payload|t] eqn:Hp.
    + destruct (NewRequest "POST"
                  (buildAPIURL (sqlc_queries.Model chatSession) stream) payload)
        as [req|t] eqn:Hq.
      * destruct stream.
        -- apply stream_relayed.
        -- unfold bind.
           destruct (handleRegularResponse (client (model_client m))
                       (http.Header_Set req "Content-Type" "application/json") w)
             as [[a0 e0] w0|msg w0] eqn:Hr; [|discriminate].
           destruct a0 as [a0|]; cbn [deref]; [|discriminate].
           unfold ret, Fprint, toConsumer.
           intro H; inversion H; subst.
           apply (regular_relayed _ _ _ _ _ _ Hr).
      * intro H; inversion H; subst. apply relayed_supplied.
        exact (NewRequest_error _ _ _ _ Hq).
    + intro H; inversion H; subst. apply relayed_supplied.
      exact (supplied_payload _ _ _ Hp).
  - intro H; inversion H; subst. apply relayed_supplied.
    exact (supplied_files _ _ Hf).
Qed.

Lemma title_relayed (model chatText title : string) (w w' : World)
  (e : APIError) :
  GenerateChatTitle model chatText w = Return (title, Some e) w' ->
  Relayed e.
Proof.
  unfold GenerateChatTitle.
  destruct (String.eqb (os.Getenv environ "GEMINI_API_KEY") "").
  { intro H; inversion H; subst. apply relayed_bare. listed. }
  destruct (String.eqb (strings.TrimSpace chatText) "").
  { intro H; inversion H; subst. right; right; left. reflexivity. }
  fold (titleMessages chatText).
  destruct (GenGemminPayload (titleMessages chatText) []) as [payload|t] eqn:Hp.
  - destruct (NewRequest "POST" (buildAPIURL model false) payload)
      as [req|t] eqn:Hq.
    + unfold bind.
      destruct (handleRegularResponse {| http.Timeout := 1 * 60 |}
                  (http.Header_Set req "Content-Type" "application/json") w)
        as [[a0 e0] w0|msg w0] eqn:Hr; [|discriminate].
      destruct e0 as [e0|].
      * intro H; inversion H; subst.
        apply (regular_relayed _ _ _ _ _ _ Hr).
      * destruct a0 as [a0|].
        -- destruct (String.eqb (models.Answer a0) "").
           { intro H; inversion H; subst. apply relayed_bare. listed. }
           cbv zeta.
           destruct (String.eqb
                       (strings.Trim
                          (strings.Trim (strings.TrimSpace (models.Answer a0)) QUOTE)
                          "*") ""); [|discriminate].
           intro H; inversion H; subst. apply relayed_bare. listed.
        -- intro H; inversion H; subst. apply relayed_bare. listed.
    + intro H; inversion H; subst. apply relayed_supplied.
      exact (NewRequest_error _ _ _ _ Hq).
  - intro H; inversion H; subst. apply relayed_supplied.
    exact (supplied_payload _ _ _ Hp).
Qed.

(** C6, as the code has it: the relay redacts nothing.  Every error that
    one of the four operations returns is the internal error under the
    fixed message of the step that failed, with the text that step's
    collaborator supplied (the transport error of the request, the
    provider's body, a read, decode, payload, URL or query error) as debug
    detail, unchanged, so that the key is in the debug detail exactly when
    it is in that text; or it is one of the errors that embed no text. *)
Theorem relay_errors_unredacted (e : APIError) :
  Raised e -> Relayed e.
Proof.
  intros [c req w w' a H | m wr req answerID w w' a H
         | m wr chatSession messages chatUuid regenerate stream w w' a H
         | model chatText title w w' H].
  - exact (regular_relayed _ _ _ _ _ _ H).
  - exact (stream_relayed _ _ _ _ _ _ _ _ H).
  - exact (Stream_relayed _ _ _ _ _ _ _ _ _ _ _ H).
  - exact (title_relayed _ _ _ _ _ _ H).
Qed.

End Disclosure.

(** The error of a provider that cannot be reached, as [GenerateChatTitle]
    returns it: the text of the transport error is the debug detail, and
    the key of the request URL is in it. *)
Lemma relay_errors_unredacted_witness :
  @Relayed sample_imports (sample_env (Some "s3cr3t") unreachable)
    (@internalDebug sample_imports "Failed to send Gemini API request"
       ("Post " ++ QUOTE
        ++ "https://generativelanguage.googleapis.com/v1beta/models/gemini-pro:generateContent?key=s3cr3t"
        ++ QUOTE
        ++ ": dial tcp: lookup generativelanguage.googleapis.com: no such host"))
  /\ strings.Contains
       (DebugInfo
          (@internalDebug sample_imports "Failed to send Gemini API request"
             ("Post " ++ QUOTE
              ++ "https://generativelanguage.googleapis.com/v1beta/models/gemini-pro:generateContent?key=s3cr3t"
              ++ QUOTE
              ++ ": dial tcp: lookup generativelanguage.googleapis.com: no such host")))
       "s3cr3t" = true.
Proof.
  split; [|reflexivity].
  apply (@relay_errors_unredacted sample_imports
           (sample_env (Some "s3cr3t") unreachable)).
  apply (@raised_title sample_imports (sample_env (Some "s3cr3t") unreachable)
           _ "gemini-pro" "Let's plan a trip to Japan" ""
           idle
           (later idle []
              [ Sent {| http.Timeout := 60 |}
                  {| http.Method := "POST";
                     http.URL := "https://generativelanguage.googleapis.com/v1beta/models/gemini-pro:generateContent?key=s3cr3t";
                     http.Payload := "Generate a concise and descriptive title (max 10 words) for this chat conversation, no special characters.|Let's plan a trip to Japan";
                     http.Header := [("Content-Type", "application/json")] |} ])).
  reflexivity.
Defined.

(** C6 is false as stated: the request URL holds the key, the error of a
    request that could not be sent quotes the URL, and the relay puts that
    text into the debug detail as it is. *)
Lemma transport_error_discloses_key :
  @GenerateChatTitle sample_imports (sample_env (Some "s3cr3t") unreachable)
    "gemini-pro" "Let's plan a trip to Japan" idle
  = Return
      ("",
       Some {| HTTPCode := 500; Code := "INTN_001";
               Message := "Failed to send Gemini API request";
               DebugInfo :=
                 "Post " ++ QUOTE
                 ++ "https://generativelanguage.googleapis.com/v1beta/models/gemini-pro:generateContent?key=s3cr3t"
                 ++ QUOTE
                 ++ ": dial tcp: lookup generativelanguage.googleapis.com: no such host" |})
      (later idle []
         [ Sent {| http.Timeout := 60 |}
             {| http.Method := "POST";
                http.URL := "https://generativelanguage.googleapis.com/v1beta/models/gemini-pro:generateContent?key=s3cr3t";
                http.Payload := "Generate a concise and descriptive title (max 10 words) for this chat conversation, no special characters.|Let's plan a trip to Japan";
                http.Header := [("Content-Type", "application/json")] |} ])
  /\ strings.Contains
       ("Post " ++ QUOTE
        ++ "https://generativelanguage.googleapis.com/v1beta/models/gemini-pro:generateContent?key=s3cr3t"
        ++ QUOTE
        ++ ": dial tcp: lookup generativelanguage.googleapis.com: no such host")
       "s3cr3t" = true.
Proof. split; reflexivity. Qed.

(** ** [Stream] *)

Section StreamRuns.

Context {imports : Imports} {env : Env}.

(** Whatever the credential, the endpoint resolver yields a URL: the
    reference to the variable is replaced by its value, the empty string
    when it is not set. *)
Lemma buildAPIURL_expands (model : string) (stream : bool) :
  buildAPIURL model stream =
  os.ExpandEnv environ
    ("https://generativelanguage.googleapis.com/v1beta/models/" ++ model ++ ":"
     ++ (if stream then "streamGenerateContent?alt=sse&" else "generateContent?")
     ++ "key=$GEMINI_API_KEY").
Proof.
  unfold buildAPIURL. destruct stream; reflexivity.
Qed.

(** In single-shot mode an error of [handleRegularResponse] comes with no
    answer, and [Stream] reads the field [Answer] of the answer all the
    same. *)
Lemma Stream_single_shot_error (m : GeminiChatModel) (wr : http.ResponseWriter)
  (chatSession : sqlc_queries.ChatSession) (messages : list models.Message)
  (chatUuid : string) (regenerate : bool) (files : list sqlc_queries.ChatFile)
  (payload : bytes) (req : http.Request) (e : option APIError) (w w' : World) :
  ListChatFilesWithContentBySessionUUID (sqlc_queries.Uuid chatSession)
  = inl files ->
  GenGemminPayload messages files = inl payload ->
  NewRequest "POST" (buildAPIURL (sqlc_queries.Model chatSession) false) payload
  = inl req ->
  handleRegularResponse (client (model_client m))
    (http.Header_Set req "Content-Type" "application/json") w
  = Return (None, e) w' ->
  Stream m wr chatSession messages chatUuid regenerate false w
  = Panic "runtime error: invalid memory address or nil pointer dereference" w'.
Proof.
  intros Hf Hp Hq Hr. unfold Stream. rewrite Hf, Hp, Hq.
  unfold bind. rewrite Hr. reflexivity.
Qed.

End StreamRuns.

(** C9 fails on the code: the provider answers 500, [handleRegularResponse]
    returns no answer and an error, and [Stream] panics on the answer it
    does not have instead of returning the error. *)
Theorem Stream_panics_on_single_shot_error :
  @handleRegularResponse sample_imports
    (sample_env (Some "s3cr3t") (fun _ => inl (whole 500 "internal error")))
    (client NewGeminiClient)
    {| http.Method := "POST";
       http.URL := "https://generativelanguage.googleapis.com/v1beta/models/gemini-pro:generateContent?key=s3cr3t";
       http.Payload := "Hello";
       http.Header := [("Content-Type", "application/json")] |} idle
  = Return
      (None,
       Some {| HTTPCode := 500; Code := "INTN_001";
               Message := "Gemini API error: 500";
               DebugInfo := "internal error" |})
      (later idle []
         [ Sent (client NewGeminiClient)
             {| http.Method := "POST";
                http.URL := "https://generativelanguage.googleapis.com/v1beta/models/gemini-pro:generateContent?key=s3cr3t";
                http.Payload := "Hello";
                http.Header := [("Content-Type", "application/json")] |};
           Closed ])
  /\ @Stream sample_imports
       (sample_env (Some "s3cr3t") (fun _ => inl (whole 500 "internal error")))
       NewGeminiChatModel flushing sample_session
       [ {| models.Role := "user"; models.Content := "Hello" |} ]
       "c1" true false idle
     = Panic "runtime error: invalid memory address or nil pointer dereference"
         (later idle []
            [ Sent (client NewGeminiClient)
                {| http.Method := "POST";
                   http.URL := "https://generativelanguage.googleapis.com/v1beta/models/gemini-pro:generateContent?key=s3cr3t";
                   http.Payload := "Hello";
                   http.Header := [("Content-Type", "application/json")] |};
              Closed ]).
Proof. split; reflexivity. Qed.

(** C2 fails on the code for [Stream]: with the variable not set the URL
    is built with an empty key and the request is sent, in either mode.
    When the provider turns the request down, the streaming call returns an
    empty answer and no error (the status is not looked at, and no line of
    the body is an event), and the single-shot call panics as in C9. *)
Theorem Stream_sends_without_credential :
  os.Getenv (@environ (sample_env None (fun _ => inl denied))) "GEMINI_API_KEY"
  = ""
  /\ @Stream sample_imports (sample_env None (fun _ => inl denied))
       NewGeminiChatModel flushing sample_session
       [ {| models.Role := "user"; models.Content := "Hello" |} ]
       "c1" true true idle
     = Return (Some {| models.Answer := ""; models.AnswerId := "c1" |}, None)
         (later idle (@headerEvents sample_imports)
            [ Sent (client NewGeminiClient)
                {| http.Method := "POST";
                   http.URL := "https://generativelanguage.googleapis.com/v1beta/models/gemini-pro:streamGenerateContent?alt=sse&key=";
                   http.Payload := "Hello";
                   http.Header := [("Content-Type", "application/json")] |};
              Closed ])
  /\ @Stream sample_imports (sample_env None (fun _ => inl denied))
       NewGeminiChatModel flushing sample_session
       [ {| models.Role := "user"; models.Content := "Hello" |} ]
       "c1" true false idle
     = Panic "runtime error: invalid memory address or nil pointer dereference"
         (later idle []
            [ Sent (client NewGeminiClient)
                {| http.Method := "POST";
                   http.URL := "https://generativelanguage.googleapis.com/v1beta/models/gemini-pro:generateContent?key=";
                   http.Payload := "Hello";
                   http.Header := [("Content-Type", "application/json")] |};
              Closed ]).
Proof. repeat split; reflexivity. Qed.

(** [GenerateChatTitle] does test the credential: without it nothing is
    sent, whatever the transcript. *)
Lemma GenerateChatTitle_needs_credential {imports : Imports} {env : Env}
  (model chatText : string) (w : World) :
  os.Getenv environ "GEMINI_API_KEY" = "" ->
  GenerateChatTitle model chatText w =
  Return ("", Some (internal "GEMINI_API_KEY environment variable not set")) w.
Proof. intro Hk. unfold GenerateChatTitle. now rewrite Hk. Qed.

(** ** More on the single-shot path *)

Lemma later_consumer (w : World) (ns : list NetEvent) :
  consumer (later w [] ns) = consumer w.
Proof. unfold later; simpl. apply app_nil_r. Qed.

Section SingleShotMore.

Context {imports : Imports} {env : Env}.

(** X1: a response whose status is not 200 ends the single-shot path with
    the error "Gemini API error: <status>", the body read so far as debug
    detail and no answer; the body is closed and the envelope is never
    decoded. *)
Theorem handleRegularResponse_status (c : http.Client) (req : http.Request)
  (resp : http.Response) (w : World) :
  RoundTrip c req = inl resp ->
  http.StatusCode resp <> http.StatusOK ->
  handleRegularResponse c req w =
  Return
    (None,
     Some (internalDebug
             ("Gemini API error: " ++ itoa (http.StatusCode resp))
             (String.concat "" (io.lines (http.Body resp))
              ++ io.rest (http.Body resp))))
    (later w [] [Sent c req; Closed]).
Proof.
  intros Hr Hs. rewrite handleRegularResponse_run, Hr. cbv zeta.
  apply Z.eqb_neq in Hs. rewrite Hs. reflexivity.
Qed.

(** X2: when the single-shot path returns, it returns either an error and
    no answer, or an answer and no error; the answer then has a text that
    is not empty and an empty answer id. *)
Theorem handleRegularResponse_exclusive (c : http.Client)
  (req : http.Request) (w w' : World) (a : option models.LLMAnswer)
  (e : option APIError) :
  handleRegularResponse c req w = Return (a, e) w' ->
  (a = None /\ e <> None)
  \/ (exists ans, a = Some ans /\ e = None
                  /\ models.Answer ans <> "" /\ models.AnswerId ans = "").
Proof.
  rewrite handleRegularResponse_run.
  destruct (RoundTrip c req) as [resp|t].
  - cbv zeta.
    destruct (negb (http.StatusCode resp =? http.StatusOK)).
    { intro H; inversion H; subst. left. split; [reflexivity|discriminate]. }
    destruct (snd (io.ReadAll (http.Body resp))).
    { intro H; inversion H; subst. left. split; [reflexivity|discriminate]. }
    destruct (json_Unmarshal (fst (io.ReadAll (http.Body resp))))
      as [decoded|t].
    + destruct (gemini.Candidates decoded) as [|cand cands]; [discriminate|].
      destruct (gemini.Parts (gemini.Content cand)) as [|part parts];
        [discriminate|].
      destruct (String.eqb (gemini.Text part) "") eqn:Ht.
      * intro H; inversion H; subst. left. split; [reflexivity|discriminate].
      * intro H; inversion H; subst. right.
        apply String.eqb_neq in Ht.
        eexists. repeat split. exact Ht.
    + intro H; inversion H; subst. left. split; [reflexivity|discriminate].
  - intro H; inversion H; subst. left. split; [reflexivity|discriminate].
Qed.

(** X3: a 200 response whose envelope decodes but has no candidate, or
    whose first candidate has no part, makes the single-shot path panic on
    the index expression; the body is closed all the same. *)
Theorem handleRegularResponse_index_panic (c : http.Client)
  (req : http.Request) (resp : http.Response) (body : bytes)
  (decoded : gemini.ResponseBody) (w : World) :
  RoundTrip c req = inl resp ->
  http.StatusCode resp = http.StatusOK ->
  io.ReadAll (http.Body resp) = (body, None) ->
  json_Unmarshal body = inl decoded ->
  gemini.Candidates decoded = []
  \/ (exists cand cands,
        gemini.Candidates decoded = cand :: cands
        /\ gemini.Parts (gemini.Content cand) = []) ->
  handleRegularResponse c req w =
  Panic "runtime error: index out of range [0] with length 0"
    (later w [] [Sent c req; Closed]).
Proof.
  intros Hr Hs Hb Hd Hc.
  rewrite handleRegularResponse_run, Hr. cbv zeta.
  rewrite Hs, Z.eqb_refl, Hb. cbn [negb fst snd]. rewrite Hd.
  destruct Hc as [Hc | (cand & cands & Hc & Hp)].
  - now rewrite Hc.
  - now rewrite Hc, Hp.
Qed.

(** X4: whatever the single-shot path does (return or panic), it sends the
    request once, closes the body exactly when it got a response, and
    writes nothing to the consumer. *)
Theorem handleRegularResponse_footprint (c : http.Client)
  (req : http.Request) (w : World) :
  consumer (world_of (handleRegularResponse c req w)) = consumer w
  /\ network (world_of (handleRegularResponse c req w))
     = (network w ++ exchange c req (RoundTrip c req))%list.
Proof.
  rewrite handleRegularResponse_run. unfold exchange.
  destruct (RoundTrip c req) as [resp|t]; [|split; [apply later_consumer|reflexivity]].
  cbv zeta.
  destruct (negb (http.StatusCode resp =? http.StatusOK));
    [split; [apply later_consumer|reflexivity]|].
  destruct (snd (io.ReadAll (http.Body resp)));
    [split; [apply later_consumer|reflexivity]|].
  destruct (json_Unmarshal (fst (io.ReadAll (http.Body resp)))) as [decoded|t];
    [|split; [apply later_consumer|reflexivity]].
  destruct (gemini.Candidates decoded) as [|cand cands];
    [split; [apply later_consumer|reflexivity]|].
  destruct (gemini.Parts (gemini.Content cand)) as [|part parts];
    [split; [apply later_consumer|reflexivity]|].
  destruct (String.eqb (gemini.Text part) "");
    (split; [apply later_consumer|reflexivity]).
Qed.

End SingleShotMore.

Lemma handleRegularResponse_status_witness :
  @handleRegularResponse sample_imports (sample_env None (fun _ => inl denied))
    (client NewGeminiClient) sample_request idle
  = Return
      (None,
       Some {| HTTPCode := 500; Code := "INTN_001";
               Message := "Gemini API error: 403";
               DebugInfo :=
                 "{" ++ LF ++ "  error: PERMISSION_DENIED" ++ LF ++ "}" ++ LF |})
      (later idle [] [Sent (client NewGeminiClient) sample_request; Closed]).
Proof.
  apply (@handleRegularResponse_status sample_imports
           (sample_env None (fun _ => inl denied))
           (client NewGeminiClient) sample_request denied idle).
  - reflexivity.
  - discriminate.
Defined.

Lemma handleRegularResponse_exclusive_witness :
  (@None models.LLMAnswer = None
   /\ Some (@internal sample_imports "Empty response from Gemini") <> None)
  \/ (exists ans,
        @None models.LLMAnswer = Some ans
        /\ Some (@internal sample_imports "Empty response from Gemini") = None
        /\ models.Answer ans <> "" /\ models.AnswerId ans = "").
Proof.
  apply (@handleRegularResponse_exclusive
           (imports_with (fun _ => inl (envelope "")))
           (sample_env (Some "s3cr3t") (fun _ => inl (whole 200 "{...}")))
           {| http.Timeout := 60 |} sample_request idle
           (later idle [] [Sent {| http.Timeout := 60 |} sample_request; Closed])).
  reflexivity.
Defined.

Lemma handleRegularResponse_index_panic_witness :
  @handleRegularResponse sample_imports
    (sample_env (Some "s3cr3t") (fun _ => inl (whole 200 "{}")))
    {| http.Timeout := 60 |} sample_request idle
  = Panic "runtime error: index out of range [0] with length 0"
      (later idle [] [Sent {| http.Timeout := 60 |} sample_request; Closed]).
Proof.
  apply (@handleRegularResponse_index_panic sample_imports
           (sample_env (Some "s3cr3t") (fun _ => inl (whole 200 "{}")))
           {| http.Timeout := 60 |} sample_request (whole 200 "{}") "{}"
           {| gemini.Candidates := [] |} idle);
    try reflexivity.
  left. reflexivity.
Defined.

(** ** More on the streaming path *)

Lemma last_app_cons {A} (l1 l2 : list A) (x d : A) :
  last (l1 ++ x :: l2)%list d = last (x :: l2) d.
Proof.
  induction l1 as [|y l1 IH]; [reflexivity|].
  cbn [app]. rewrite <- IH.
  destruct (l1 ++ x :: l2)%list eqn:E; [|reflexivity].
  destruct l1; discriminate.
Qed.

Section StreamingMore.

Context {imports : Imports}.

Lemma deliveries_partials (answerID : string) (ls : list bytes) :
  forall answer,
    deliveries answerID ls answer
    = flat_map (fun t => [Write (frame answerID t); Flush]) (partials ls answer).
Proof.
  induction ls as [|line more IH]; intro answer; cbn [deliveries partials].
  - reflexivity.
  - rewrite flat_map_app, IH.
    destruct (effective line); reflexivity.
Qed.

Lemma partials_count (ls : list bytes) :
  forall answer, length (partials ls answer) = length (filter effective ls).
Proof.
  induction ls as [|line more IH]; intro answer; cbn [partials filter].
  - reflexivity.
  - rewrite length_app, IH. destruct (effective line); reflexivity.
Qed.

Lemma partials_none (ls : list bytes) :
  forall answer, partials ls answer = [] -> accumulate ls answer = answer.
Proof.
  induction ls as [|line more IH]; intro answer; cbn [partials accumulate].
  - reflexivity.
  - unfold fold1 at 1 3. destruct (effective line) eqn:He; [discriminate|].
    cbn [app]. unfold fold1. rewrite He. apply IH.
Qed.

Lemma partials_last (ls : list bytes) (d : string) :
  forall answer,
    partials ls answer <> [] ->
    last (partials ls answer) d = accumulate ls answer.
Proof.
  induction ls as [|line more IH]; intro answer; cbn [partials accumulate].
  - congruence.
  - intro Hne.
    destruct (partials more (fold1 line answer)) as [|t ts] eqn:Hm.
    + rewrite (partials_none more _ Hm).
      destruct (effective line); [reflexivity|].
      now contradiction Hne.
    + rewrite last_app_cons, <- Hm. apply IH. rewrite Hm. discriminate.
Qed.

Lemma headerEvents_silent :
  flat_map (fun e => match e with Write p => [p] | _ => [] end) headerEvents
  = [].
Proof.
  unfold headerEvents. induction sseHeader as [|kv hs IH]; [reflexivity|exact IH].
Qed.

Lemma written_frames (answerID : string) (ts : list string) :
  flat_map (fun e => match e with Write p => [p] | _ => [] end)
    (flat_map (fun t => [Write (frame answerID t); Flush]) ts)
  = map (frame answerID) ts.
Proof.
  induction ts as [|t ts IH]; [reflexivity|].
  cbn [flat_map app map]. f_equal. exact IH.
Qed.

End StreamingMore.

Lemma last_map_cons {A B} (f : A -> B) (l : list A) (d : B) (d' : A) :
  l <> [] -> last (map f l) d = f (last l d').
Proof.
  induction l as [|x l IH]; [congruence|]. intros _.
  destruct l as [|y l]; [reflexivity|].
  change (last (map f (y :: l)) d = f (last (y :: l) d')).
  apply IH. discriminate.
Qed.

Ltac one_of :=
  split;
  [ split;
    [ first [discriminate | intros _; discriminate]
    | first [reflexivity | let H := fresh in intro H; now contradiction H] ]
  | reflexivity ].

Section StreamingFacts.

Context {imports : Imports} {env : Env}.

Lemma partials_some (ls : list bytes) :
  forall answer, existsb effective ls = true -> partials ls answer <> [].
Proof.
  induction ls as [|line more IH]; intro answer; cbn [existsb partials].
  - discriminate.
  - destruct (effective line); cbn [orb app]; [discriminate|]. apply IH.
Qed.

(** X5: the streaming path never panics; it returns either an answer or
    an error, never both and never neither; it sends the request once and
    closes the body exactly when it got a response. *)
Theorem handleStreamResponse_footprint (m : GeminiChatModel)
  (wr : http.ResponseWriter) (req : http.Request) (answerID : string)
  (w : World) :
  match handleStreamResponse m wr req answerID w with
  | Return (a, e) w' =>
      (a = None <-> e <> None)
      /\ network w'
         = (network w
            ++ exchange (client (model_client m)) req
                 (RoundTrip (client (model_client m)) req))%list
  | Panic _ _ => False
  end.
Proof.
  destruct (RoundTrip (client (model_client m)) req) as [resp|t] eqn:Hr.
  - rewrite (handleStreamResponse_run m wr req answerID resp w Hr).
    destruct (http.implementsFlusher wr); cbv zeta.
    + destruct (Z.of_nat (length (io.lines (http.Body resp))) <? lineCap);
        [destruct (io.err (http.Body resp))|]; one_of.
    + one_of.
  - unfold handleStreamResponse, bind. rewrite Do_run, Hr. one_of.
Qed.

(** X6: the streaming path reads the complete lines of the body and the
    error that ends it, and nothing else of the response: two responses
    that agree on those two give the same outcome, whatever their status
    codes and whatever follows the last line feed. *)
Theorem handleStreamResponse_lines_only (env1 env2 : Env)
  (m : GeminiChatModel) (wr : http.ResponseWriter) (req : http.Request)
  (answerID : string) (resp1 resp2 : http.Response) (w : World) :
  @RoundTrip env1 (client (model_client m)) req = inl resp1 ->
  @RoundTrip env2 (client (model_client m)) req = inl resp2 ->
  io.lines (http.Body resp2) = io.lines (http.Body resp1) ->
  io.err (http.Body resp2) = io.err (http.Body resp1) ->
  @handleStreamResponse imports env2 m wr req answerID w
  = @handleStreamResponse imports env1 m wr req answerID w.
Proof.
  intros Hr1 Hr2 Hl He.
  rewrite (@handleStreamResponse_run imports env1 m wr req answerID resp1 w Hr1).
  rewrite (@handleStreamResponse_run imports env2 m wr req answerID resp2 w Hr2).
  now rewrite Hl, He.
Qed.

(** X7: with a response and a consumer that can flush, the consumer gets
    the event-stream headers and then, for each line processed that carries
    the prefix, one write of the framed cumulative text followed by one
    flush, in the order of the lines; there are at most [lineCap] such
    writes. *)
Theorem handleStreamResponse_forwards (m : GeminiChatModel)
  (wr : http.ResponseWriter) (req : http.Request) (answerID : string)
  (resp : http.Response) (w : World) :
  RoundTrip (client (model_client m)) req = inl resp ->
  http.implementsFlusher wr = true ->
  consumer (world_of (handleStreamResponse m wr req answerID w))
  = (consumer w ++ headerEvents
     ++ flat_map (fun t => [Write (frame answerID t); Flush])
          (partials (firstn (Z.to_nat lineCap) (io.lines (http.Body resp))) ""))%list
  /\ length (partials (firstn (Z.to_nat lineCap) (io.lines (http.Body resp))) "")
     = length (filter effective
                 (firstn (Z.to_nat lineCap) (io.lines (http.Body resp))))
  /\ Z.of_nat
       (length (partials (firstn (Z.to_nat lineCap) (io.lines (http.Body resp))) ""))
     <= lineCap.
Proof.
  intros Hr Hf.
  rewrite (handleStreamResponse_run m wr req answerID resp w Hr), Hf.
  cbv zeta. cbn [world_of]. unfold later. cbn [consumer].
  rewrite deliveries_partials, partials_count.
  repeat split.
  pose proof (filter_length_le effective
                (firstn (Z.to_nat lineCap) (io.lines (http.Body resp)))) as H1.
  pose proof (firstn_le_length (Z.to_nat lineCap) (io.lines (http.Body resp))) as H2.
  pose proof (length_firstn (Z.to_nat lineCap) (io.lines (http.Body resp))) as H3.
  unfold lineCap in *. lia.
Qed.

(** X8: when the streaming path returns an answer after forwarding at
    least one delivery, the answer carries the answer id it was given and
    its text is the text of the last delivery written to the consumer. *)
Theorem handleStreamResponse_answer_is_last_delivery (m : GeminiChatModel)
  (wr : http.ResponseWriter) (req : http.Request) (answerID : string)
  (resp : http.Response) (w w' : World) (a : models.LLMAnswer)
  (e : option APIError) :
  RoundTrip (client (model_client m)) req = inl resp ->
  http.implementsFlusher wr = true ->
  existsb effective (firstn (Z.to_nat lineCap) (io.lines (http.Body resp)))
  = true ->
  handleStreamResponse m wr req answerID w = Return (Some a, e) w' ->
  last (written w') "" = frame answerID (models.Answer a)
  /\ models.AnswerId a = answerID.
Proof.
  intros Hr Hf Hx.
  rewrite (handleStreamResponse_run m wr req answerID resp w Hr), Hf.
  cbv zeta.
  set (seen := firstn (Z.to_nat lineCap) (io.lines (http.Body resp))) in *.
  assert (Hlast : forall w0,
             last (written (later w (headerEvents ++ deliveries answerID seen "") w0)) ""
             = frame answerID (accumulate seen "")).
  { intro w0. rewrite written_later, flat_map_app, headerEvents_silent.
    cbn [app]. rewrite deliveries_partials, written_frames.
    pose proof (partials_some seen "" Hx) as Hne.
    destruct (partials seen "") as [|t ts] eqn:Hp; [congruence|].
    cbn [map]. rewrite last_app_cons.
    change (last (map (frame answerID) (t :: ts)) "" = frame answerID (accumulate seen "")).
    rewrite (last_map_cons (frame answerID) (t :: ts) "" "") by discriminate.
    rewrite <- Hp, partials_last by (rewrite Hp; discriminate).
    reflexivity. }
  destruct (Z.ltb_spec (Z.of_nat (length (io.lines (http.Body resp)))) lineCap)
    as [Hlt|Hge].
  - assert (Hs : seen = io.lines (http.Body resp))
      by (unfold seen; apply firstn_all2; lia).
    destruct (io.err (http.Body resp)); [discriminate|].
    intro H; inversion H; subst a e w'. rewrite Hlast, <- Hs. split; reflexivity.
  - intro H; inversion H; subst a e w'. rewrite Hlast. split; reflexivity.
Qed.

(** X9: a request that cannot be sent ends either path with the error
    "Failed to send Gemini API request", the text of the transport error
    as debug detail and no answer; the consumer is not touched (no header
    is set) and there is no body to close. *)
Theorem send_failure (m : GeminiChatModel) (wr : http.ResponseWriter)
  (req : http.Request) (answerID t : string) (w : World) :
  RoundTrip (client (model_client m)) req = inr t ->
  handleRegularResponse (client (model_client m)) req w
  = Return (None, Some (internalDebug "Failed to send Gemini API request" t))
      (later w [] [Sent (client (model_client m)) req])
  /\ handleStreamResponse m wr req answerID w
     = Return (None, Some (internalDebug "Failed to send Gemini API request" t))
         (later w [] [Sent (client (model_client m)) req]).
Proof.
  intro Hr. split.
  - now rewrite handleRegularResponse_run, Hr.
  - unfold handleStreamResponse, bind. now rewrite Do_run, Hr.
Qed.

End StreamingFacts.

Lemma handleStreamResponse_lines_only_witness :
  @handleStreamResponse sample_imports
    (sample_env None
       (fun _ => inl (ragged 403 ["data: Hel" ++ LF] "data: lo" None)))
    NewGeminiChatModel flushing sample_request "a1" idle
  = @handleStreamResponse sample_imports
      (sample_env None (fun _ => inl (streamed ["data: Hel" ++ LF] None)))
      NewGeminiChatModel flushing sample_request "a1" idle.
Proof.
  apply (@handleStreamResponse_lines_only sample_imports
           (sample_env None (fun _ => inl (streamed ["data: Hel" ++ LF] None)))
           (sample_env None
              (fun _ => inl (ragged 403 ["data: Hel" ++ LF] "data: lo" None)))
           NewGeminiChatModel flushing sample_request "a1"
           (streamed ["data: Hel" ++ LF] None)
           (ragged 403 ["data: Hel" ++ LF] "data: lo" None) idle);
    reflexivity.
Defined.

Lemma handleStreamResponse_forwards_witness :
  consumer
    (world_of
       (@handleStreamResponse sample_imports
          (sample_env None
             (fun _ =>
                inl (streamed ["data: Hel" ++ LF; LF; "data: lo" ++ LF] None)))
          NewGeminiChatModel flushing sample_request "a1" idle))
  = [ SetHeader "Content-Type" "text/event-stream";
      SetHeader "Cache-Control" "no-cache";
      SetHeader "Connection" "keep-alive";
      Write ("data: {id:a1,text:Hel}" ++ LF ++ LF); Flush;
      Write ("data: {id:a1,text:Hello}" ++ LF ++ LF); Flush ].
Proof.
  etransitivity.
  - apply (@handleStreamResponse_forwards sample_imports
             (sample_env None
                (fun _ =>
                   inl (streamed ["data: Hel" ++ LF; LF; "data: lo" ++ LF] None)))
             NewGeminiChatModel flushing sample_request "a1"
             (streamed ["data: Hel" ++ LF; LF; "data: lo" ++ LF] None) idle);
      reflexivity.
  - vm_compute. reflexivity.
Defined.

Lemma handleStreamResponse_answer_is_last_delivery_witness :
  last
    (written
       (later idle
          (@headerEvents sample_imports
           ++ [ Write ("data: {id:a1,text:Hel}" ++ LF ++ LF); Flush;
                Write ("data: {id:a1,text:Hello}" ++ LF ++ LF); Flush ])
          [Sent (client NewGeminiClient) sample_request; Closed])) ""
  = @frame sample_imports "a1" "Hello"
  /\ models.AnswerId {| models.Answer := "Hello"; models.AnswerId := "a1" |}
     = "a1".
Proof.
  apply (@handleStreamResponse_answer_is_last_delivery sample_imports
           (sample_env None
              (fun _ =>
                 inl (streamed ["data: Hel" ++ LF; LF; "data: lo" ++ LF] None)))
           NewGeminiChatModel flushing sample_request "a1"
           (streamed ["data: Hel" ++ LF; LF; "data: lo" ++ LF] None) idle
           _ {| models.Answer := "Hello"; models.AnswerId := "a1" |} None);
    vm_compute; reflexivity.
Defined.

Lemma send_failure_witness :
  @handleRegularResponse sample_imports (sample_env None refused)
    (client NewGeminiClient) sample_request idle
  = Return
      (None,
       Some (@internalDebug sample_imports "Failed to send Gemini API request"
               "dial tcp 142.250.0.1:443: connect: connection refused"))
      (later idle [] [Sent (client NewGeminiClient) sample_request])
  /\ @handleStreamResponse sample_imports (sample_env None refused)
       NewGeminiChatModel flushing sample_request "a1" idle
     = Return
         (None,
          Some (@internalDebug sample_imports "Failed to send Gemini API request"
                  "dial tcp 142.250.0.1:443: connect: connection refused"))
         (later idle [] [Sent (client NewGeminiClient) sample_request]).
Proof.
  apply (@send_failure sample_imports (sample_env None refused)
           NewGeminiChatModel flushing sample_request "a1"
           "dial tcp 142.250.0.1:443: connect: connection refused" idle).
  reflexivity.
Defined.

(** ** More on [Stream] *)

Section StreamMore.

Context {imports : Imports} {env : Env}.

Lemma handleStreamResponse_answer_id (m : GeminiChatModel)
  (wr : http.ResponseWriter) (req : http.Request) (answerID : string)
  (w w' : World) (a : models.LLMAnswer) (e : option APIError) :
  handleStreamResponse m wr req answerID w = Return (Some a, e) w' ->
  models.AnswerId a = answerID.
Proof.
  destruct (RoundTrip (client (model_client m)) req) as [resp|t] eqn:Hr.
  - rewrite (handleStreamResponse_run m wr req answerID resp w Hr).
    destruct (http.implementsFlusher wr); [|discriminate]. cbv zeta.
    destruct (Z.of_nat (length (io.lines (http.Body resp))) <? lineCap);
      [destruct (io.err (http.Body resp)); [discriminate|]|];
      intro H; inversion H; reflexivity.
  - unfold handleStreamResponse, bind. rewrite Do_run, Hr. discriminate.
Qed.

(** X10: an answer that [Stream] returns, in either mode, carries the chat
    uuid when the call regenerates an answer and the identifier drawn by
    [NewUUID] otherwise. *)
Theorem Stream_answer_id (m : GeminiChatModel) (wr : http.ResponseWriter)
  (chatSession : sqlc_queries.ChatSession) (messages : list models.Message)
  (chatUuid : string) (regenerate stream : bool) (w w' : World)
  (a : models.LLMAnswer) (e : option APIError) :
  Stream m wr chatSession messages chatUuid regenerate stream w
  = Return (Some a, e) w' ->
  models.AnswerId a = if regenerate then chatUuid else NewUUID.
Proof.
  unfold Stream.
  replace (if negb regenerate then NewUUID else chatUuid)
    with (if regenerate then chatUuid else NewUUID)
    by (destruct regenerate; reflexivity).
  destruct (ListChatFilesWithContentBySessionUUID (sqlc_queries.Uuid chatSession))
    as [files|t]; [|discriminate].
  destruct (GenGemminPayload messages files) as [payload|t]; [|discriminate].
  destruct (NewRequest "POST"
              (buildAPIURL (sqlc_queries.Model chatSession) stream) payload)
    as [req|t]; [|discriminate].
  destruct stream.
  - apply handleStreamResponse_answer_id.
  - unfold bind.
    destruct (handleRegularResponse (client (model_client m))
                (http.Header_Set req "Content-Type" "application/json") w)
      as [[a0 e0] w0|msg w0]; [|discriminate].
    destruct a0 as [a0|]; cbn [deref]; [|discriminate].
    unfold ret, Fprint, toConsumer.
    intro H; inversion H; reflexivity.
Qed.

(** X11: in single-shot mode, an answer of [handleRegularResponse] is
    written to the consumer once, encoded with the answer id and without
    event framing or flush, and returned under the answer id with no
    error. *)
Theorem Stream_single_shot_answer (m : GeminiChatModel)
  (wr : http.ResponseWriter) (chatSession : sqlc_queries.ChatSession)
  (messages : list models.Message) (chatUuid : string) (regenerate : bool)
  (files : list sqlc_queries.ChatFile) (payload : bytes) (req : http.Request)
  (a : models.LLMAnswer) (e : option APIError) (w w' : World) :
  ListChatFilesWithContentBySessionUUID (sqlc_queries.Uuid chatSession)
  = inl files ->
  GenGemminPayload messages files = inl payload ->
  NewRequest "POST" (buildAPIURL (sqlc_queries.Model chatSession) false) payload
  = inl req ->
  handleRegularResponse (client (model_client m))
    (http.Header_Set req "Content-Type" "application/json") w
  = Return (Some a, e) w' ->
  Stream m wr chatSession messages chatUuid regenerate false w
  = Return
      (Some {| models.Answer := models.Answer a;
               models.AnswerId := if regenerate then chatUuid else NewUUID |},
       None)
      (later w'
         [ Write (json_Marshal
                    (constructChatCompletionStreamReponse
                       (if regenerate then chatUuid else NewUUID)
                       (models.Answer a))) ]
         []).
Proof.
  intros Hf Hp Hq Hr.
  destruct (handleRegularResponse_answer _ _ _ _ _ _ Hr) as (_ & _ & He).
  subst e. unfold Stream. rewrite Hf, Hp, Hq.
  unfold bind. rewrite Hr. cbn [deref]. unfold ret, Fprint.
  rewrite toConsumer_run.
  destruct regenerate; reflexivity.
Qed.

(** X12: when the chat files cannot be listed, the payload cannot be built
    or the request cannot be created, [Stream] returns an internal error
    with the failure's text as debug detail and no answer, having sent
    nothing and written nothing. *)
Theorem Stream_fails_before_dispatch (m : GeminiChatModel)
  (wr : http.ResponseWriter) (chatSession : sqlc_queries.ChatSession)
  (messages : list models.Message) (chatUuid : string)
  (regenerate stream : bool) (t : string) (w : World) :
  ListChatFilesWithContentBySessionUUID (sqlc_queries.Uuid chatSession) = inr t
  \/ (exists files,
        ListChatFilesWithContentBySessionUUID (sqlc_queries.Uuid chatSession)
        = inl files
        /\ (GenGemminPayload messages files = inr t
            \/ exists payload,
                 GenGemminPayload messages files = inl payload
                 /\ url_Parse_error
                      (buildAPIURL (sqlc_queries.Model chatSession) stream)
                    = Some t)) ->
  exists message,
    In message
      [ "Failed to get chat files"; "Failed to generate Gemini payload";
        "Failed to create Gemini API request" ]
    /\ Stream m wr chatSession messages chatUuid regenerate stream w
       = Return (None, Some (internalDebug message t)) w.
Proof.
  unfold Stream, NewRequest.
  intros [Hf | (files & Hf & [Hp | (payload & Hp & Hu)])].
  - rewrite Hf. eexists. split; [|reflexivity]. simpl; tauto.
  - rewrite Hf, Hp. eexists. split; [|reflexivity]. simpl; tauto.
  - rewrite Hf, Hp, Hu. eexists. split; [|reflexivity]. simpl; tauto.
Qed.

End StreamMore.

Lemma Stream_answer_id_witness :
  models.AnswerId {| models.Answer := "Hi"; models.AnswerId := "0b6a3f0e" |}
  = "0b6a3f0e".
Proof.
  apply (@Stream_answer_id sample_imports
           (sample_env None (fun _ => inl (streamed [ "data: Hi" ++ LF ] None)))
           NewGeminiChatModel flushing sample_session
           [ {| models.Role := "user"; models.Content := "Hello" |} ]
           "c1" false true idle
           (later idle
              (@headerEvents sample_imports
               ++ [ Write ("data: {id:0b6a3f0e,text:Hi}" ++ LF ++ LF); Flush ])
              [ Sent (client NewGeminiClient)
                  {| http.Method := "POST";
                     http.URL := "https://generativelanguage.googleapis.com/v1beta/models/gemini-pro:streamGenerateContent?alt=sse&key=";
                     http.Payload := "Hello";
                     http.Header := [("Content-Type", "application/json")] |};
                Closed ])
           {| models.Answer := "Hi"; models.AnswerId := "0b6a3f0e" |} None).
  reflexivity.
Defined.

Lemma Stream_single_shot_answer_witness :
  @Stream sample_imports
    (sample_env (Some "s3cr3t") (fun _ => inl (whole 200 "Hi")))
    NewGeminiChatModel flushing sample_session
    [ {| models.Role := "user"; models.Content := "Hello" |} ]
    "c1" true false idle
  = Return (Some {| models.Answer := "Hi"; models.AnswerId := "c1" |}, None)
      (later idle [ Write "{id:c1,text:Hi}" ]
         [ Sent (client NewGeminiClient)
             {| http.Method := "POST";
                http.URL := "https://generativelanguage.googleapis.com/v1beta/models/gemini-pro:generateContent?key=s3cr3t";
                http.Payload := "Hello";
                http.Header := [("Content-Type", "application/json")] |};
           Closed ]).
Proof.
  apply (@Stream_single_shot_answer sample_imports
           (sample_env (Some "s3cr3t") (fun _ => inl (whole 200 "Hi")))
           NewGeminiChatModel flushing sample_session
           [ {| models.Role := "user"; models.Content := "Hello" |} ]
           "c1" true [] "Hello"
           {| http.Method := "POST";
              http.URL := "https://generativelanguage.googleapis.com/v1beta/models/gemini-pro:generateContent?key=s3cr3t";
              http.Payload := "Hello";
              http.Header := [] |}
           {| models.Answer := "Hi"; models.AnswerId := "" |} None idle
           (later idle []
              [ Sent (client NewGeminiClient)
                  {| http.Method := "POST";
                     http.URL := "https://generativelanguage.googleapis.com/v1beta/models/gemini-pro:generateContent?key=s3cr3t";
                     http.Payload := "Hello";
                     http.Header := [("Content-Type", "application/json")] |};
                Closed ]));
    reflexivity.
Defined.

Lemma Stream_fails_before_dispatch_witness :
  exists message,
    In message
      [ "Failed to get chat files"; "Failed to generate Gemini payload";
        "Failed to create Gemini API request" ]
    /\ @Stream sample_imports offline_env NewGeminiChatModel flushing
         sample_session
         [ {| models.Role := "user"; models.Content := "Hello" |} ]
         "c1" true true idle
       = Return
           (None,
            Some (@internalDebug sample_imports message
                    "pq: the database system is shutting down"))
           idle.
Proof.
  apply (@Stream_fails_before_dispatch sample_imports offline_env
           NewGeminiChatModel flushing sample_session
           [ {| models.Role := "user"; models.Content := "Hello" |} ]
           "c1" true true "pq: the database system is shutting down" idle).
  left. reflexivity.
Defined.

(** ** More on title generation and on the endpoint *)

Lemma append_nil_r (s : string) : s ++ "" = s.
Proof. induction s as [|c s IH]; [reflexivity|]. simpl. now rewrite IH. Qed.

Lemma take_nonempty (n : nat) (s : string) :
  n <> O -> s <> "" -> strings.take n s <> "".
Proof.
  destruct n as [|n]; [congruence|]. destruct s as [|c t]; [congruence|].
  discriminate.
Qed.

Lemma expandFrom_plain (mapping : string -> string) (s t : string) :
  plain s = true ->
  os.expandFrom mapping O (s ++ t) = s ++ os.expandFrom mapping O t.
Proof.
  unfold plain. induction s as [|c s IH]; [reflexivity|].
  cbn [strings.mem negb]. intro H.
  apply negb_true_iff, orb_false_iff in H. destruct H as [Hc Hs].
  change (String c s ++ t) with (String c (s ++ t)).
  cbn [os.expandFrom].
  rewrite Ascii.eqb_sym in Hc. rewrite Hc. cbn [andb].
  rewrite IH by (now rewrite Hs). reflexivity.
Qed.

Section TitleMore.

Context {imports : Imports} {env : Env}.

Lemma handleRegularResponse_world (c : http.Client) (req : http.Request)
  (w : World) :
  world_of (handleRegularResponse c req w)
  = later w [] (exchange c req (RoundTrip c req)).
Proof.
  rewrite handleRegularResponse_run. unfold exchange.
  destruct (RoundTrip c req) as [resp|t]; [|reflexivity]. cbv zeta.
  destruct (negb (http.StatusCode resp =? http.StatusOK)); [reflexivity|].
  destruct (snd (io.ReadAll (http.Body resp))); [reflexivity|].
  destruct (json_Unmarshal (fst (io.ReadAll (http.Body resp)))) as [decoded|t];
    [|reflexivity].
  destruct (gemini.Candidates decoded) as [|cand cands]; [reflexivity|].
  destruct (gemini.Parts (gemini.Content cand)) as [|part parts]; [reflexivity|].
  destruct (String.eqb (gemini.Text part) ""); reflexivity.
Qed.

(** X13: with the credential set, a transcript that is empty after
    trimming white space makes [GenerateChatTitle] return the validation
    error "chat text cannot be empty" and an empty title; no payload is
    built and nothing is sent. *)
Theorem GenerateChatTitle_blank_transcript (model chatText : string)
  (w : World) :
  os.Getenv environ "GEMINI_API_KEY" <> "" ->
  strings.TrimSpace chatText = "" ->
  GenerateChatTitle model chatText w
  = Return ("", Some (ErrValidationInvalidInput "chat text cannot be empty")) w.
Proof.
  intros Hk Ht. unfold GenerateChatTitle.
  apply String.eqb_neq in Hk. rewrite Hk, Ht. reflexivity.
Qed.

(** X14: whenever [GenerateChatTitle] returns, it returns either a title
    that is not empty and has at most 100 characters, with no error, or an
    empty title with an error; it never writes to a consumer. *)
Theorem GenerateChatTitle_result (model chatText title : string)
  (e : option APIError) (w w' : World) :
  GenerateChatTitle model chatText w = Return (title, e) w' ->
  ((e = None /\ title <> "" /\ Z.of_nat (String.length title) <= 100)
   \/ (e <> None /\ title = ""))
  /\ consumer w' = consumer w.
Proof.
  unfold GenerateChatTitle.
  destruct (String.eqb (os.Getenv environ "GEMINI_API_KEY") "").
  { intro H; inversion H; subst. split; [right; split; [discriminate|reflexivity]|reflexivity]. }
  destruct (String.eqb (strings.TrimSpace chatText) "").
  { intro H; inversion H; subst. split; [right; split; [discriminate|reflexivity]|reflexivity]. }
  destruct (GenGemminPayload _ []) as [payload|t].
  2:{ intro H; inversion H; subst. split; [right; split; [discriminate|reflexivity]|reflexivity]. }
  destruct (NewRequest "POST" (buildAPIURL model false) payload) as [req|t].
  2:{ intro H; inversion H; subst. split; [right; split; [discriminate|reflexivity]|reflexivity]. }
  unfold bind.
  pose proof (handleRegularResponse_world {| http.Timeout := 1 * 60 |}
                (http.Header_Set req "Content-Type" "application/json") w) as Hw.
  destruct (handleRegularResponse {| http.Timeout := 1 * 60 |}
              (http.Header_Set req "Content-Type" "application/json") w)
    as [[a0 e0] w0|msg w0]; [|discriminate].
  cbn [world_of] in Hw.
  assert (Hc : consumer w0 = consumer w) by (rewrite Hw; apply later_consumer).
  destruct e0 as [e0|].
  { intro H; inversion H; subst. split; [right; split; [discriminate|reflexivity]|exact Hc]. }
  destruct a0 as [a0|].
  2:{ intro H; inversion H; subst. split; [right; split; [discriminate|reflexivity]|exact Hc]. }
  destruct (String.eqb (models.Answer a0) "").
  { intro H; inversion H; subst. split; [right; split; [discriminate|reflexivity]|exact Hc]. }
  cbv zeta. fold (cleaned (models.Answer a0)).
  destruct (String.eqb (cleaned (models.Answer a0)) "") eqn:Hcl.
  { intro H; inversion H; subst. split; [right; split; [discriminate|reflexivity]|exact Hc]. }
  intro H; inversion H; subst. split; [left|exact Hc].
  apply String.eqb_neq in Hcl.
  repeat split.
  - unfold firstN. apply take_nonempty; [discriminate|exact Hcl].
  - apply firstN_length. lia.
Qed.

(** X15: an error of the single-shot path comes out of
    [GenerateChatTitle] unchanged, with an empty title. *)
Theorem GenerateChatTitle_passes_error_on (model chatText : string)
  (payload : bytes) (req : http.Request) (a : option models.LLMAnswer)
  (e : APIError) (w w' : World) :
  os.Getenv environ "GEMINI_API_KEY" <> "" ->
  strings.TrimSpace chatText <> "" ->
  GenGemminPayload (titleMessages chatText) [] = inl payload ->
  NewRequest "POST" (buildAPIURL model false) payload = inl req ->
  handleRegularResponse {| http.Timeout := 1 * 60 |}
    (http.Header_Set req "Content-Type" "application/json") w
  = Return (a, Some e) w' ->
  GenerateChatTitle model chatText w = Return ("", Some e) w'.
Proof.
  intros Hk Ht Hp Hq Hr. unfold GenerateChatTitle.
  apply String.eqb_neq in Hk, Ht. rewrite Hk, Ht.
  fold (titleMessages chatText). rewrite Hp, Hq.
  unfold bind. rewrite Hr. reflexivity.
Qed.

(** X16: for a model name without a dollar sign, the endpoint resolver
    yields the base URL, the model, the method of the mode (generateContent,
    or streamGenerateContent with alt=sse) and the value of GEMINI_API_KEY
    as the key parameter, the empty string when the variable is not set. *)
Theorem buildAPIURL_shape (model : string) (stream : bool) :
  plain model = true ->
  buildAPIURL model stream
  = apiBase ++ model
    ++ (if stream then ":streamGenerateContent?alt=sse&key="
        else ":generateContent?key=")
    ++ os.Getenv environ "GEMINI_API_KEY".
Proof.
  intro Hm. unfold buildAPIURL, os.ExpandEnv, os.Expand, apiBase.
  destruct stream; cbv zeta;
    rewrite (expandFrom_plain _ _ _ (eq_refl : plain apiBase = true));
    rewrite (expandFrom_plain _ _ _ Hm);
    cbn; rewrite append_nil_r; reflexivity.
Qed.

End TitleMore.

Lemma GenerateChatTitle_blank_transcript_witness :
  @GenerateChatTitle sample_imports (sample_env (Some "s3cr3t") refused)
    "gemini-pro" ("  " ++ LF) idle
  = Return
      ("", Some (@ErrValidationInvalidInput sample_imports
                   "chat text cannot be empty")) idle.
Proof.
  apply (@GenerateChatTitle_blank_transcript sample_imports
           (sample_env (Some "s3cr3t") refused) "gemini-pro" ("  " ++ LF) idle).
  - vm_compute. discriminate.
  - reflexivity.
Defined.

Lemma GenerateChatTitle_result_witness :
  ((@None APIError = None
    /\ "Japan Trip Planning" <> ""
    /\ Z.of_nat (String.length "Japan Trip Planning") <= 100)
   \/ (@None APIError <> None /\ "Japan Trip Planning" = ""))
  /\ consumer
       (later idle []
          [ Sent {| http.Timeout := 60 |}
              {| http.Method := "POST";
                 http.URL := "https://generativelanguage.googleapis.com/v1beta/models/gemini-pro:generateContent?key=s3cr3t";
                 http.Payload := "Generate a concise and descriptive title (max 10 words) for this chat conversation, no special characters.|Let's plan a trip to Japan";
                 http.Header := [("Content-Type", "application/json")] |};
            Closed ])
     = consumer idle.
Proof.
  apply (@GenerateChatTitle_result sample_imports
           (sample_env (Some "s3cr3t")
              (fun _ => inl (whole 200 (QUOTE ++ "Japan Trip Planning" ++ QUOTE))))
           "gemini-pro" "Let's plan a trip to Japan").
  reflexivity.
Defined.

Lemma GenerateChatTitle_passes_error_on_witness :
  @GenerateChatTitle sample_imports
    (sample_env (Some "s3cr3t") (fun _ => inl denied))
    "gemini-pro" "Let's plan a trip to Japan" idle
  = Return
      ("",
       Some {| HTTPCode := 500; Code := "INTN_001";
               Message := "Gemini API error: 403";
               DebugInfo :=
                 "{" ++ LF ++ "  error: PERMISSION_DENIED" ++ LF ++ "}" ++ LF |})
      (later idle []
         [ Sent {| http.Timeout := 60 |}
             {| http.Method := "POST";
                http.URL := "https://generativelanguage.googleapis.com/v1beta/models/gemini-pro:generateContent?key=s3cr3t";
                http.Payload := "Generate a concise and descriptive title (max 10 words) for this chat conversation, no special characters.|Let's plan a trip to Japan";
                http.Header := [("Content-Type", "application/json")] |};
           Closed ]).
Proof.
  apply (@GenerateChatTitle_passes_error_on sample_imports
           (sample_env (Some "s3cr3t") (fun _ => inl denied))
           "gemini-pro" "Let's plan a trip to Japan"
           "Generate a concise and descriptive title (max 10 words) for this chat conversation, no special characters.|Let's plan a trip to Japan"
           {| http.Method := "POST";
              http.URL := "https://generativelanguage.googleapis.com/v1beta/models/gemini-pro:generateContent?key=s3cr3t";
              http.Payload := "Generate a concise and descriptive title (max 10 words) for this chat conversation, no special characters.|Let's plan a trip to Japan";
              http.Header := [] |}
           None).
  - vm_compute. discriminate.
  - vm_compute. discriminate.
  - reflexivity.
  - reflexivity.
  - reflexivity.
Defined.

Lemma buildAPIURL_shape_witness :
  @buildAPIURL (sample_env (Some "s3cr3t") refused) "gemini-1.5-flash" true
  = "https://generativelanguage.googleapis.com/v1beta/models/gemini-1.5-flash:streamGenerateContent?alt=sse&key=s3cr3t".
Proof.
  apply (@buildAPIURL_shape (sample_env (Some "s3cr3t") refused)
           "gemini-1.5-flash" true).
  reflexivity.
Defined.

(** A model name with a reference in it: the reference is expanded too. *)
Example buildAPIURL_expands_model :
  @buildAPIURL
    {| environ := fun name =>
         if String.eqb name "HOME" then Some "/root"
         else if String.eqb name "GEMINI_API_KEY" then Some "s3cr3t" else None;
       RoundTrip := fun _ req => refused req;
       ListChatFilesWithContentBySessionUUID := fun _ => inl [];
       NewUUID := "0b6a3f0e" |}
    "$HOME" false
  = "https://generativelanguage.googleapis.com/v1beta/models//root:generateContent?key=s3cr3t".
Proof. reflexivity. Qed.

(** ** What [Stream] sends, and when it can return an error *)

Section StreamRequest.

Context {imports : Imports} {env : Env}.

Lemma handleStreamResponse_world_network (m : GeminiChatModel)
  (wr : http.ResponseWriter) (req : http.Request) (answerID : string)
  (w : World) :
  network (world_of (handleStreamResponse m wr req answerID w))
  = (network w
     ++ exchange (client (model_client m)) req
          (RoundTrip (client (model_client m)) req))%list.
Proof.
  destruct (RoundTrip (client (model_client m)) req) as [resp|t] eqn:Hr.
  - rewrite (handleStreamResponse_run m wr req answerID resp w Hr).
    destruct (http.implementsFlusher wr); reflexivity.
  - unfold handleStreamResponse, bind. rewrite Do_run, Hr. reflexivity.
Qed.

(** X17: once the chat files are listed, the payload is built and the URL
    parses, [Stream] sends exactly one request, whatever happens next
    (answer, error or panic): a POST to the endpoint of the mode, with the
    payload as body and the JSON content type, through the client of the
    model; the body of the response, if any, is closed. *)
Theorem Stream_request (m : GeminiChatModel) (wr : http.ResponseWriter)
  (chatSession : sqlc_queries.ChatSession) (messages : list models.Message)
  (chatUuid : string) (regenerate stream : bool)
  (files : list sqlc_queries.ChatFile) (payload : bytes) (w : World) :
  ListChatFilesWithContentBySessionUUID (sqlc_queries.Uuid chatSession)
  = inl files ->
  GenGemminPayload messages files = inl payload ->
  url_Parse_error (buildAPIURL (sqlc_queries.Model chatSession) stream) = None ->
  network
    (world_of (Stream m wr chatSession messages chatUuid regenerate stream w))
  = (network w
     ++ exchange (client (model_client m))
          {| http.Method := "POST";
             http.URL := buildAPIURL (sqlc_queries.Model chatSession) stream;
             http.Payload := payload;
             http.Header := [("Content-Type", "application/json")] |}
          (RoundTrip (client (model_client m))
             {| http.Method := "POST";
                http.URL := buildAPIURL (sqlc_queries.Model chatSession) stream;
                http.Payload := payload;
                http.Header := [("Content-Type", "application/json")] |}))%list.
Proof.
  intros Hf Hp Hu. unfold Stream, NewRequest. rewrite Hf, Hp, Hu.
  unfold http.Header_Set. cbn [http.Method http.URL http.Payload http.Header filter].
  destruct stream.
  - apply handleStreamResponse_world_network.
  - unfold bind.
    match goal with
    | |- context [handleRegularResponse ?c ?r w] =>
        pose proof (handleRegularResponse_world c r w) as Hw;
        destruct (handleRegularResponse c r w) as [[a0 e0] w0|msg w0]
    end; cbn [world_of] in Hw |- *; [|now rewrite Hw].
    destruct a0 as [a0|]; cbn [deref]; unfold panic, ret, Fprint, toConsumer;
      cbn [world_of network]; now rewrite Hw.
Qed.

(** X18: in single-shot mode [Stream] returns an error only when it fails
    before the request is sent: an error returned means that nothing was
    sent and nothing written.  After the request, the call returns an
    answer without error or panics. *)
Theorem Stream_single_shot_error_is_early (m : GeminiChatModel)
  (wr : http.ResponseWriter) (chatSession : sqlc_queries.ChatSession)
  (messages : list models.Message) (chatUuid : string) (regenerate : bool)
  (a : option models.LLMAnswer) (e : APIError) (w w' : World) :
  Stream m wr chatSession messages chatUuid regenerate false w
  = Return (a, Some e) w' ->
  w' = w /\ a = None.
Proof.
  unfold Stream.
  destruct (ListChatFilesWithContentBySessionUUID (sqlc_queries.Uuid chatSession))
    as [files|t]; [|intro H; inversion H; auto].
  destruct (GenGemminPayload messages files) as [payload|t];
    [|intro H; inversion H; auto].
  destruct (NewRequest "POST"
              (buildAPIURL (sqlc_queries.Model chatSession) false) payload)
    as [req|t]; [|intro H; inversion H; auto].
  unfold bind.
  destruct (handleRegularResponse (client (model_client m))
              (http.Header_Set req "Content-Type" "application/json") w)
    as [[a0 e0] w0|msg w0] eqn:Hr; [|discriminate].
  destruct a0 as [a0|]; cbn [deref]; [|discriminate].
  destruct (handleRegularResponse_answer _ _ _ _ _ _ Hr) as (_ & _ & He).
  subst e0. unfold ret, Fprint, toConsumer. discriminate.
Qed.

(** X19: a body of fewer than [lineCap] lines, none of which is an event,
    ended by end of input, gives an empty answer and no error in streaming
    mode, with nothing forwarded but the headers; the status code of the
    response plays no part. *)
Theorem handleStreamResponse_no_event (m : GeminiChatModel)
  (wr : http.ResponseWriter) (req : http.Request) (answerID : string)
  (resp : http.Response) (w : World) :
  RoundTrip (client (model_client m)) req = inl resp ->
  http.implementsFlusher wr = true ->
  Z.of_nat (length (io.lines (http.Body resp))) < lineCap ->
  io.err (http.Body resp) = None ->
  existsb effective (io.lines (http.Body resp)) = false ->
  handleStreamResponse m wr req answerID w
  = Return (Some {| models.Answer := ""; models.AnswerId := answerID |}, None)
      (later w headerEvents [Sent (client (model_client m)) req; Closed]).
Proof.
  intros Hr Hf Hn He Hx.
  rewrite (handleStreamResponse_run m wr req answerID resp w Hr), Hf.
  cbv zeta.
  replace (Z.of_nat (length (io.lines (http.Body resp))) <? lineCap) with true
    by (symmetry; apply Z.ltb_lt; lia).
  rewrite He, firstn_all2 by lia.
  assert (Hp : partials (io.lines (http.Body resp)) "" = []).
  { destruct (partials (io.lines (http.Body resp)) "") as [|t ts] eqn:Hp;
      [reflexivity|].
    pose proof (partials_count (io.lines (http.Body resp)) "") as Hc.
    rewrite Hp in Hc.
    assert (Hfil : filter effective (io.lines (http.Body resp)) = []).
    { clear - Hx. induction (io.lines (http.Body resp)) as [|l ls IH];
        [reflexivity|].
      cbn [existsb filter] in *. apply orb_false_iff in Hx.
      destruct Hx as [H1 H2]. rewrite H1. now apply IH. }
    rewrite Hfil in Hc. discriminate. }
  rewrite deliveries_partials, Hp, (partials_none _ _ Hp).
  cbn [flat_map]. rewrite app_nil_r. reflexivity.
Qed.

End StreamRequest.

Lemma Stream_request_witness :
  network
    (world_of
       (@Stream sample_imports
          (sample_env (Some "s3cr3t") (fun _ => inl (whole 500 "internal error")))
          NewGeminiChatModel flushing sample_session
          [ {| models.Role := "user"; models.Content := "Hello" |} ]
          "c1" true false idle))
  = [ Sent {| http.Timeout := 300 |}
        {| http.Method := "POST";
           http.URL := "https://generativelanguage.googleapis.com/v1beta/models/gemini-pro:generateContent?key=s3cr3t";
           http.Payload := "Hello";
           http.Header := [("Content-Type", "application/json")] |};
      Closed ].
Proof.
  apply (@Stream_request sample_imports
           (sample_env (Some "s3cr3t") (fun _ => inl (whole 500 "internal error")))
           NewGeminiChatModel flushing sample_session
           [ {| models.Role := "user"; models.Content := "Hello" |} ]
           "c1" true false [] "Hello" idle);
    reflexivity.
Defined.

Lemma Stream_single_shot_error_is_early_witness :
  idle = idle /\ @None models.LLMAnswer = None.
Proof.
  apply (@Stream_single_shot_error_is_early sample_imports offline_env
           NewGeminiChatModel flushing sample_session
           [ {| models.Role := "user"; models.Content := "Hello" |} ]
           "c1" true None
           (@internalDebug sample_imports "Failed to get chat files"
              "pq: the database system is shutting down")
           idle idle).
  reflexivity.
Defined.

Lemma handleStreamResponse_no_event_witness :
  @handleStreamResponse sample_imports
    (sample_env None (fun _ => inl denied))
    NewGeminiChatModel flushing sample_request "a1" idle
  = Return (Some {| models.Answer := ""; models.AnswerId := "a1" |}, None)
      (later idle (@headerEvents sample_imports)
         [Sent (client NewGeminiClient) sample_request; Closed]).
Proof.
  apply (@handleStreamResponse_no_event sample_imports
           (sample_env None (fun _ => inl denied))
           NewGeminiChatModel flushing sample_request "a1" denied idle);
    vm_compute; reflexivity.
Defined.

Lemma Stream_single_shot_error_witness :
  @Stream sample_imports (sample_env (Some "s3cr3t") refused)
    NewGeminiChatModel flushing sample_session
    [ {| models.Role := "user"; models.Content := "Hello" |} ]
    "c1" true false idle
  = Panic "runtime error: invalid memory address or nil pointer dereference"
      (later idle []
         [ Sent (client NewGeminiClient)
             {| http.Method := "POST";
                http.URL := "https://generativelanguage.googleapis.com/v1beta/models/gemini-pro:generateContent?key=s3cr3t";
                http.Payload := "Hello";
                http.Header := [("Content-Type", "application/json")] |} ]).
Proof.
  apply (@Stream_single_shot_error sample_imports
           (sample_env (Some "s3cr3t") refused)
           NewGeminiChatModel flushing sample_session
           [ {| models.Role := "user"; models.Content := "Hello" |} ]
           "c1" true [] "Hello"
           {| http.Method := "POST";
              http.URL := "https://generativelanguage.googleapis.com/v1beta/models/gemini-pro:generateContent?key=s3cr3t";
              http.Payload := "Hello";
              http.Header := [] |}
           (Some (@internalDebug sample_imports "Failed to send Gemini API request"
                    "dial tcp 142.250.0.1:443: connect: connection refused"))
           idle);
    reflexivity.
Defined.
